(** * PythonChessController: serial protocol and sensor devices

    A shallow embedding of [src/hardware/serial_protocol.py] and
    [src/hardware/devices.py], and the properties of the transport codec,
    the cached sensor values and the move-inference machine.

    Python values are embedded as the type [PyVal]; a call that can raise
    returns an [outcome]; methods of objects are state-passing functions
    that return the outcome together with the object after the call, so
    that the mutations made before a [raise] stay visible. *)

From Stdlib Require Import ZArith String Ascii List Bool Lia.
From Stdlib Require Import DecimalString HexString DecimalPos.
From stdpp Require Import gmap.
Import ListNotations.

Local Open Scope string_scope.
Local Open Scope Z_scope.

(* ===================================================================== *)
(** * Python values and builtins *)
(* ===================================================================== *)

Module Py.

(** The values that reach the functions of the two modules. A [str] is a
    sequence of code points below 256 (Latin-1): every string the two
    modules write, and every reply line of the protocol, is one. What is
    proved of a string is proved of these strings. *)
Inductive PyVal : Type :=
| PyNone
| PyBool (b : bool)
| PyInt (n : Z)
| PyStr (s : string).

(** The exceptions raised by the embedded code. *)
Inductive PyExc : Type :=
| ValueError
| TypeError
| AttributeError
| IndexError.

(** Result of a call: a value, an exception, or a blocking read that never
    returns (no line arrives on the channel). *)
Inductive outcome (A : Type) : Type :=
| Ok (a : A)
| Raise (e : PyExc)
| Blocked.

Arguments Ok {A} a.
Arguments Raise {A} e.
Arguments Blocked {A}.

Definition obind {A B : Type} (m : outcome A) (k : A -> outcome B) : outcome B :=
  match m with
  | Ok a => k a
  | Raise e => Raise e
  | Blocked => Blocked
  end.

(** Methods: the object state is threaded, and survives an exception. *)
Definition M (S A : Type) : Type := S -> outcome A * S.

Definition ret {S A : Type} (a : A) : M S A := fun s => (Ok a, s).

Definition raise {S A : Type} (e : PyExc) : M S A := fun s => (Raise e, s).

Definition bind {S A B : Type} (m : M S A) (k : A -> M S B) : M S B :=
  fun s =>
    match m s with
    | (Ok a, s') => k a s'
    | (Raise e, s') => (Raise e, s')
    | (Blocked, s') => (Blocked, s')
    end.

(** A pure computation that may raise, run inside a method. *)
Definition lift {S A : Type} (o : outcome A) : M S A := fun s => (o, s).

(** [bool] is a subclass of [int]: [True] is 1 and [False] is 0. *)
Definition Z_of_bool (b : bool) : Z := if b then 1 else 0.

(** [isinstance(v, int)], with the integer it denotes. *)
Definition as_int (v : PyVal) : option Z :=
  match v with
  | PyBool b => Some (Z_of_bool b)
  | PyInt n => Some n
  | _ => None
  end.

(** Truth value of [v], as [not v] and [if v] test it. *)
Definition truthy (v : PyVal) : bool :=
  match v with
  | PyNone => false
  | PyBool b => b
  | PyInt n => negb (n =? 0)
  | PyStr s => negb (String.eqb s "")
  end.

(** [str(n)] for an integer. *)
Definition str_of_Z (n : Z) : string :=
  DecimalString.NilZero.string_of_int (Z.to_int n).

(** [str(v)], also what an f-string field [{v}] renders. *)
Definition py_str (v : PyVal) : string :=
  match v with
  | PyNone => "None"
  | PyBool true => "True"
  | PyBool false => "False"
  | PyInt n => str_of_Z n
  | PyStr s => s
  end.

(** [hex(n)]: sign, the prefix 0x and the lowercase digits. *)
Definition hex (n : Z) : string := HexString.of_Z n.

(** The slice [s[k:]]. *)
Fixpoint drop_str (k : nat) (s : string) : string :=
  match k, s with
  | O, _ => s
  | S k', String _ r => drop_str k' r
  | S _, EmptyString => EmptyString
  end.

(** [v < n] for an integer literal [n]: defined on ints and bools, a
    TypeError on [None] and on [str]. *)
Definition lt_int (v : PyVal) (n : Z) : outcome bool :=
  match as_int v with
  | Some z => Ok (z <? n)
  | None => Raise TypeError
  end.

(** [v[0]]: the first character of a [str] (IndexError when empty);
    [int], [bool] and [None] are not subscriptable. *)
Definition getitem0 (v : PyVal) : outcome ascii :=
  match v with
  | PyStr (String c _) => Ok c
  | PyStr EmptyString => Raise IndexError
  | _ => Raise TypeError
  end.

(** [c in s] for a one-character string [c]. *)
Fixpoint char_in (c : ascii) (s : string) : bool :=
  match s with
  | EmptyString => false
  | String d r => Ascii.eqb c d || char_in c r
  end.

(** ** [int(s)] on a string

    Leading and trailing whitespace is dropped; an optional sign; then
    decimal digits, where one underscore may stand between two digits.
    Below code point 256 the whitespace of [int] is the characters 9..13,
    32, 133 and 160, and its digits are 0..9. (Beyond Latin-1 [int] also
    reads the other decimal digits and whitespace of Unicode; such
    strings are not values of [PyStr].) *)

Definition is_space (c : ascii) : bool :=
  let n := nat_of_ascii c in
  ((9 <=? n)%nat && (n <=? 13)%nat) || (n =? 32)%nat
  || (n =? 133)%nat || (n =? 160)%nat.

Definition digit_val (c : ascii) : option Z :=
  let n := nat_of_ascii c in
  if ((48 <=? n)%nat && (n <=? 57)%nat) then Some (Z.of_nat n - 48) else None.

Fixpoint lstrip (s : string) : string :=
  match s with
  | String c r => if is_space c then lstrip r else s
  | EmptyString => EmptyString
  end.

Fixpoint all_space (s : string) : bool :=
  match s with
  | String c r => is_space c && all_space r
  | EmptyString => true
  end.

(** The digits after the first one: returns the number read and what
    follows it; fails on an underscore that no digit follows. *)
Fixpoint digits_tail (s : string) (acc : Z) : option (Z * string) :=
  match s with
  | EmptyString => Some (acc, EmptyString)
  | String c r =>
    match digit_val c with
    | Some d => digits_tail r (acc * 10 + d)
    | None =>
      if Ascii.eqb c "_" then
        match r with
        | String c2 r2 =>
          match digit_val c2 with
          | Some d => digits_tail r2 (acc * 10 + d)
          | None => None
          end
        | EmptyString => None
        end
      else Some (acc, s)
    end
  end.

Definition unsigned_literal (s : string) : option Z :=
  match s with
  | String c r =>
    match digit_val c with
    | Some d =>
      match digits_tail r d with
      | Some (n, rest) => if all_space rest then Some n else None
      | None => None
      end
    | None => None
    end
  | EmptyString => None
  end.

(** The integer literal in [s], when it is one. *)
Definition int_literal (s : string) : option Z :=
  match lstrip s with
  | String "+" r => unsigned_literal r
  | String "-" r => option_map Z.opp (unsigned_literal r)
  | t => unsigned_literal t
  end.

(** The number of digits in [s]. *)
Fixpoint count_digits (s : string) : Z :=
  match s with
  | EmptyString => 0
  | String c r =>
    match digit_val c with
    | Some _ => 1 + count_digits r
    | None => count_digits r
    end
  end.

(** [sys.get_int_max_str_digits()], by default: [int] refuses a string
    with more digits (leading zeros count, underscores do not). *)
Definition int_max_str_digits : Z := 4300.

(** [int(s)]: [None] stands for the ValueError, raised for a string that
    is no integer literal and for one with more digits than the limit. *)
Definition int_of_str (s : string) : option Z :=
  if int_max_str_digits <? count_digits s then None else int_literal s.

End Py.

Import Py.

Notation "'let*' x := m 'in' k" := (bind m (fun x => k))
  (at level 10, x name, m at level 100, k at level 200).
Notation "'run' m 'then' k" := (bind m (fun _ => k))
  (at level 10, m at level 100, k at level 200).

(* ===================================================================== *)
(** * serial_protocol.py *)
(* ===================================================================== *)

Module SerialProtocol.

Definition MODES : list (string * string) :=
  [ ("INPUT", "I"); ("OUTPUT", "O"); ("BRAKE", "S");
    ("RELEASE", "R"); ("FORWARD", "F"); ("BACKWARD", "B") ].

(** [mode in MODES]: a key of the dictionary. *)
Definition in_MODES (mode : PyVal) : bool :=
  match mode with
  | PyStr s => existsb (fun kv => String.eqb s (fst kv)) MODES
  | _ => false
  end.

(** [mode in MODES.values()]. *)
Definition in_MODES_values (mode : PyVal) : bool :=
  match mode with
  | PyStr s => existsb (fun kv => String.eqb s (snd kv)) MODES
  | _ => false
  end.

(** [MODES[mode]], used only where [mode in MODES]. *)
Definition MODES_get (s : string) : option string :=
  option_map snd (find (fun kv => String.eqb s (fst kv)) MODES).

(** [is_valid_port]: returns [True], [False], or (falling off the end for a
    value that is neither [str] nor [int]) [None]. *)
Definition is_valid_port (port : PyVal) : PyVal :=
  match port with
  | PyStr s =>
    match s with
    | String c0 (String c1 EmptyString) =>
      if Ascii.eqb c0 "A" then PyBool (char_in c1 "012345")
      else if Ascii.eqb c0 "M" then PyBool (char_in c1 "0123")
      else if Ascii.eqb c0 "S" then PyBool (char_in c1 "01")
      else
        match int_of_str s with
        | Some int_port => PyBool ((0 <=? int_port) && (int_port <=? 13))
        | None => PyBool false
        end
    | _ => PyBool false
    end
  | PyBool b => PyBool ((0 <=? Z_of_bool b) && (Z_of_bool b <=? 13))
  | PyInt n => PyBool ((0 <=? n) && (n <=? 13))
  | PyNone => PyNone
  end.

Definition is_valid_value (value : PyVal) : bool :=
  match value with
  | PyBool _ => true
  | PyInt n => (0 <=? n) && (n <? 256)
  | _ => false
  end.

Definition is_valid_speed (speed : PyVal) : bool :=
  match as_int speed with
  | Some n => (0 <? n) && (n <? 256)
  | None => false
  end.

Definition is_None (v : PyVal) : bool :=
  match v with PyNone => true | _ => false end.

(** [check_inputs(port, value, mode, speed)]; an argument left out is
    [PyNone]. The tests are made in the order of the source, [and] being
    evaluated left to right. *)
Definition check_inputs (port value mode speed : PyVal) : outcome unit :=
  if negb (truthy (is_valid_port port)) then Raise ValueError else
  obind
    (if is_None value then Ok tt
     else obind (getitem0 port) (fun c =>
            if negb (Ascii.eqb c "S") && negb (is_valid_value value)
            then Raise ValueError else Ok tt))
    (fun _ =>
       if negb (is_None mode) && negb (in_MODES mode) && negb (in_MODES_values mode)
       then Raise ValueError
       else if negb (is_None speed) && negb (is_valid_speed speed)
       then Raise ValueError
       else Ok tt).

Definition format_port (port : PyVal) : string :=
  match port with
  | PyStr s => s
  | _ =>
    let zero :=
      match as_int port with
      | Some n => if n <? 10 then "0" else ""
      | None => ""
      end in
    zero ++ py_str port
  end.

Definition format_value (value : PyVal) : outcome string :=
  match value with
  | PyBool b => Ok (if b then "H" else "L")
  | _ =>
    obind (lt_int value 0) (fun neg =>
      match value with
      | PyInt n =>
        Ok ((if neg then "-" else "") ++ drop_str (if neg then 3 else 2) (hex n))
      | _ => Raise TypeError
      end)
  end.

Definition format_speed (speed : PyVal) : outcome string :=
  let res := py_str speed in
  obind (lt_int speed 10) (fun small =>
    Ok (if small then "0" ++ res else res)).

Definition format_mode (mode : PyVal) : PyVal :=
  match mode with
  | PyStr s =>
    match MODES_get s with
    | Some code => PyStr code
    | None => mode
    end
  | _ => mode
  end.

(** The byte channel ([serial.Serial]): what was written to it, in order,
    and the lines still to be read. *)
Record Channel : Type := mkChannel {
  written : list string;
  incoming : list string
}.

(** A [Serial] object; [bridge] is [None] when no device was opened. *)
Record Serial : Type := mkSerial {
  connected : bool;
  bridge : option Channel
}.

(** [self.bridge.write(f'{msg}\r'.encode())] *)
Definition _write (msg : string) : M Serial unit :=
  fun self =>
    match bridge self with
    | Some ch =>
      (Ok tt, mkSerial (connected self)
                (Some (mkChannel (written ch ++ [msg ++ String "013" ""])
                                 (incoming ch))))
    | None => (Raise AttributeError, self)
    end.

(** [self.bridge.readline().decode()] *)
Definition readline : M Serial string :=
  fun self =>
    match bridge self with
    | Some ch =>
      match incoming ch with
      | line :: rest =>
        (Ok line, mkSerial (connected self) (Some (mkChannel (written ch) rest)))
      | [] => (Blocked, self)
      end
    | None => (Raise AttributeError, self)
    end.

Definition set_value (port value : PyVal) : M Serial unit :=
  run lift (check_inputs port value PyNone PyNone) then
  fun self =>
    if connected self then
      (let* v := lift (format_value value) in
       _write (format_port port ++ ":" ++ v)) self
    else (Ok tt, self).

Definition set_speed (port speed : PyVal) : M Serial unit :=
  let* c := lift (getitem0 port) in
  if Ascii.eqb c "M" then set_value port speed
  else
    run lift (check_inputs port PyNone PyNone speed) then
    let* c' := lift (getitem0 port) in
    if negb (Ascii.eqb c' "S") then raise ValueError
    else
      fun self =>
        if connected self then
          (let* d := lift (format_speed speed) in
           _write (format_port port ++ "-" ++ d)) self
        else (Ok tt, self).

Definition set_mode (port mode : PyVal) : M Serial unit :=
  run lift (check_inputs port PyNone mode PyNone) then
  fun self =>
    if connected self then
      _write (format_port port ++ "-" ++ py_str (format_mode mode)) self
    else (Ok tt, self).

(** [get_value]: returns the integer read, or [None] when not connected. *)
Definition get_value (port : PyVal) : M Serial PyVal :=
  run lift (check_inputs port PyNone PyNone PyNone) then
  fun self =>
    if connected self then
      (run _write (py_str port ++ "?") then
       let* line := readline in
       match int_of_str line with
       | Some n => ret (PyInt n)
       | None => raise ValueError
       end) self
    else (Ok PyNone, self).

End SerialProtocol.

Import SerialProtocol.

(* ===================================================================== *)
(** * devices.py *)
(* ===================================================================== *)

Module Devices.

(** ** CachedValue

    The fields of the base class, with the fields of the subclass in
    [fields]. [_value] and [last_value] hold [None] or a sample.
    [fetch_calls] is a ghost counter: it is incremented at each call of
    [_fetch_value], and nothing reads it. *)
Record CachedValue (T Sub : Type) : Type := mkCached {
  _value : option T;
  last_value : option T;
  track : bool;
  fetch_calls : nat;
  fields : Sub
}.

Arguments mkCached {T Sub} _ _ _ _ _.
Arguments _value {T Sub} _.
Arguments last_value {T Sub} _.
Arguments track {T Sub} _.
Arguments fetch_calls {T Sub} _.
Arguments fields {T Sub} _.

(** A method of the subclass part, run on the whole object. *)
Definition on_fields {T Sub A : Type} (m : M Sub A) : M (CachedValue T Sub) A :=
  fun self =>
    let '(r, sub') := m (fields self) in
    (r, mkCached (_value self) (last_value self) (track self)
                 (fetch_calls self) sub').

Section CachedValue.

Context {T Sub : Type}.

(** The abstract method: it works on the fields of the subclass and
    returns a sample, which may be [None]. *)
Variable _fetch_value : M Sub (option T).

Definition count_fetch : M (CachedValue T Sub) unit :=
  fun self =>
    (Ok tt, mkCached (_value self) (last_value self) (track self)
                     (S (fetch_calls self)) (fields self)).

Definition store_value (v : option T) : M (CachedValue T Sub) unit :=
  fun self =>
    (Ok tt, mkCached v (last_value self) (track self)
                     (fetch_calls self) (fields self)).

(** The property [value]. *)
Definition value : M (CachedValue T Sub) (option T) :=
  fun self =>
    match _value self with
    | None =>
      (run count_fetch then
       let* v := on_fields _fetch_value in
       run store_value v then
       ret v) self
    | Some v => (Ok (Some v), self)
    end.

Definition reset : M (CachedValue T Sub) unit :=
  fun self =>
    if track self then
      (let* v := value in
       fun self' =>
         (Ok tt, mkCached None v (track self') (fetch_calls self')
                          (fields self'))) self
    else
      (Ok tt, mkCached None (_value self) (track self) (fetch_calls self)
                       (fields self)).

End CachedValue.

(** ** DigitalInput *)

Record InputFields : Type := mkInput {
  serial : Serial;
  port : PyVal;
  reversed : bool
}.

Definition on_serial {A : Type} (m : M Serial A) : M InputFields A :=
  fun self =>
    let '(r, s') := m (serial self) in
    (r, mkInput s' (port self) (reversed self)).

(** [v == 1] *)
Definition eq_one (v : PyVal) : bool :=
  match as_int v with
  | Some n => n =? 1
  | None => false
  end.

Definition DigitalInput_fetch_value : M InputFields (option bool) :=
  fun self =>
    (let* v := on_serial (get_value (port self)) in
     ret (Some (xorb (eq_one v) (reversed self)))) self.

(** ** DigitalInputMatrix *)

(** [s.split(sep)] for a one-character separator. *)
Fixpoint split (sep : ascii) (s : string) : list string :=
  match s with
  | EmptyString => [EmptyString]
  | String c r =>
    if Ascii.eqb c sep then EmptyString :: split sep r
    else
      match split sep r with
      | h :: t => String c h :: t
      | [] => [String c EmptyString]
      end
  end.

(** [[(v == '1') ^ reversed for v in row]] *)
Definition decode_row (rev : bool) (row : string) : list bool :=
  map (fun v => xorb (Ascii.eqb v "1") rev) (list_ascii_of_string row).

(** The loop over [val.split(';')[:-1]]. *)
Definition decode_rows (rev : bool) (val : string) : list (list bool) :=
  map (decode_row rev) (removelast (split ";" val)).

(** [val.split] exists on a [str] only. *)
Definition DigitalInputMatrix_fetch_value : M InputFields (option (list (list bool))) :=
  fun self =>
    (let* val := on_serial (get_value (port self)) in
     match val with
     | PyStr s => ret (Some (decode_rows (reversed self) s))
     | _ => raise AttributeError
     end) self.

(** ** DigitalInputMatrixSet *)

Abbreviation index_set := (gset (nat * nat)).

(** The inner loop [for j, v in enumerate(row)]. *)
Fixpoint add_row (i j : nat) (row : list bool) (indexes : index_set) : index_set :=
  match row with
  | [] => indexes
  | v :: r => add_row i (S j) r (if v then {[ (i, j) ]} ∪ indexes else indexes)
  end.

(** The outer loop [for i, row in enumerate(val)]. *)
Fixpoint add_rows (i : nat) (val : list (list bool)) (indexes : index_set) : index_set :=
  match val with
  | [] => indexes
  | row :: rest => add_rows (S i) rest (add_row i 0 row indexes)
  end.

Definition DigitalInputMatrixSet_fetch_value : M InputFields (option index_set) :=
  let* val := DigitalInputMatrix_fetch_value in
  match val with
  | Some grid => ret (Some (add_rows 0 grid ∅))
  | None => raise TypeError
  end.

Definition MatrixSet : Type := CachedValue index_set InputFields.

Definition matrix_value : M MatrixSet (option index_set) :=
  value DigitalInputMatrixSet_fetch_value.

Definition matrix_reset : M MatrixSet unit :=
  reset DigitalInputMatrixSet_fetch_value.

(** [a - b] on two samples; [None] has no subtraction. *)
Definition sub_sets (a b : option index_set) : outcome index_set :=
  match a, b with
  | Some x, Some y => Ok (x ∖ y)
  | _, _ => Raise TypeError
  end.

Definition matrix_newly : M MatrixSet (option index_set) :=
  fun self =>
    match last_value self with
    | None => (Ok None, self)
    | Some last =>
      (let* cur := matrix_value in
       let* d := lift (sub_sets cur (Some last)) in
       ret (Some d)) self
    end.

Definition matrix_oldly : M MatrixSet (option index_set) :=
  fun self =>
    match last_value self with
    | None => (Ok None, self)
    | Some last =>
      (let* cur := matrix_value in
       let* d := lift (sub_sets (Some last) cur) in
       ret (Some d)) self
    end.

(** ** MoveSensor *)

Record MoveFields : Type := mkMove {
  _matrix : MatrixSet;
  pick_up : option string;
  prev_pick_up : option string
}.

Definition MoveSensor : Type := CachedValue string MoveFields.

Definition on_matrix {A : Type} (m : M MatrixSet A) : M MoveFields A :=
  fun self =>
    let '(r, m') := m (_matrix self) in
    (r, mkMove m' (pick_up self) (prev_pick_up self)).

(** [chr(indexes[0] + ord('a')) + str(indexes[1] + 1)], for a first index
    below 159 (the code point must stay below 256). *)
Definition _index_to_move (indexes : nat * nat) : string :=
  String (ascii_of_nat (fst indexes + 97))
         (str_of_Z (Z.of_nat (snd indexes) + 1)).

(** [len(x)] of what [newly()] and [oldly()] return. *)
Definition len (x : option index_set) : outcome nat :=
  match x with
  | Some s => Ok (size s)
  | None => Raise TypeError
  end.

Section Iteration.

(** The order in which Python iterates over a set; it is fixed by the
    hash table and left open here. *)
Variable set_iter : index_set -> list (nat * nat).

(** [list(x)[0]] *)
Definition first_of (x : option index_set) : outcome (nat * nat) :=
  match x with
  | Some s =>
    match set_iter s with
    | p :: _ => Ok p
    | [] => Raise IndexError
    end
  | None => Raise TypeError
  end.

Definition clear_pending : M MoveFields unit :=
  fun self => (Ok tt, mkMove (_matrix self) None None).

Definition MoveSensor_fetch_value : M MoveFields (option string) :=
  fun self =>
    match pick_up self with
    | None => (Ok None, self)
    | Some pu =>
      (let* newly := on_matrix matrix_newly in
       let* n := lift (len newly) in
       if (0 <? n)%nat then
         let* p := lift (first_of newly) in
         let set_down := _index_to_move p in
         let res :=
           match prev_pick_up self with
           | None =>
             if String.eqb set_down pu then None else Some (pu ++ set_down)
           | Some prev =>
             if String.eqb pu set_down then Some (prev ++ set_down) else None
           end in
         run clear_pending then
         ret res
       else ret None) self
    end.

Definition sensor_value : M MoveSensor (option string) :=
  value MoveSensor_fetch_value.



End Iteration.

End Devices.

Import Devices.

(* ===================================================================== *)
(** * Vocabulary of the statements *)
(* ===================================================================== *)





(** A connected serial object on which nothing was written yet, with the
    given lines waiting to be read; and one that found no device. *)
Definition open_serial (lines : list string) : Serial :=
  mkSerial true (Some (mkChannel [] lines)).

Definition closed_serial : Serial := mkSerial false None.

(** What [set_value] writes for a value: H or L, or the hexadecimal digits. *)
Definition value_code (value : PyVal) : string :=
  match value with
  | PyBool true => "H"
  | PyBool false => "L"
  | PyInt n => drop_str 2 (hex n)
  | _ => ""
  end.

(** The serial object after one more frame was written. *)
Definition after_write (self : Serial) (ch : Channel) (frame : string) : Serial :=
  mkSerial (connected self)
           (Some (mkChannel (written ch ++ [frame ++ String "013" ""]) (incoming ch))).

Definition hex_digit_chars : string := "0123456789abcdef".

(** What [set_speed] writes for a stepper speed. *)
Definition speed_code (n : Z) : string :=
  (if n <? 10 then "0" else "") ++ str_of_Z n.

(** A character that can occur in a string accepted by [int]. *)
Definition int_char (c : ascii) : bool :=
  is_space c
  || match digit_val c with Some _ => true | None => false end
  || Ascii.eqb c "+" || Ascii.eqb c "-" || Ascii.eqb c "_".

Fixpoint str_forall (P : ascii -> bool) (s : string) : bool :=
  match s with
  | EmptyString => true
  | String c r => P c && str_forall P r
  end.

Definition not_semicolon (c : ascii) : bool := negb (Ascii.eqb c ";").

(** A telemetry line for a grid: each row as 0/1 characters followed by
    the separator, then the line end. *)
Definition render_row (row : list bool) : string :=
  string_of_list_ascii (map (fun b : bool => if b then "1"%char else "0"%char) row).

Fixpoint render_rows (rows : list (list bool)) (line_end : string) : string :=
  match rows with
  | [] => line_end
  | row :: rest => render_row row ++ String ";" (render_rows rest line_end)
  end.

(** The starting layout: in every row the columns 0, 1, 6 and 7. *)
Definition start_row : list bool :=
  [true; true; false; false; false; false; true; true].

Definition start_grid : list (list bool) := repeat start_row 8.

Definition newline : string := String "010" EmptyString.

Definition start_line : string := render_rows start_grid newline.

(** The squares of the board and the pending lifts of a sensor. *)
Definition on_board (p : nat * nat) : Prop := (fst p < 8)%nat /\ (snd p < 8)%nat.

Definition board : list (nat * nat) := list_prod (seq 0 8) (seq 0 8).

Definition same_square (p q : nat * nat) : bool :=
  (fst p =? fst q)%nat && (snd p =? snd q)%nat.

Definition idle (ms : MoveFields) : MoveFields := mkMove (_matrix ms) None None.

(** A matrix on a given serial object, with the two samples it holds. *)
Definition matrix_with (s : Serial) (cur last : option index_set) : MatrixSet :=
  mkCached cur last true 0%nat (mkInput s (PyStr "A0") false).

(** A sensor with no lift pending and nothing cached. *)
Definition idle_sensor : MoveSensor :=
  mkCached None None true 0%nat
           (mkMove (matrix_with closed_serial None None) None None).

(** Sensors with one and with two lifts pending, whose matrix holds the
    current and the previous sample. *)
Definition one_lifted (s : nat * nat) (cur last : index_set) : MoveFields :=
  mkMove (matrix_with closed_serial (Some cur) (Some last))
         (Some (_index_to_move s)) None.

Definition two_lifted (first second : nat * nat) (cur last : index_set) : MoveFields :=
  mkMove (matrix_with closed_serial (Some cur) (Some last))
         (Some (_index_to_move second)) (Some (_index_to_move first)).



(** The serial object after the request for [port] was written and one
    line was read. *)
Definition after_request (port : PyVal) (ch : Channel) (rest : list string) : Serial :=
  mkSerial true
           (Some (mkChannel (written ch ++ [(py_str port ++ "?") ++ String "013" ""]) rest)).



(* ===================================================================== *)
(** * devices.py, the other classes and methods *)
(* ===================================================================== *)

(** ** DigitalOutput *)

Record DigitalOutput : Type := mkOutput {
  out_serial : Serial;
  out_port : PyVal;
  out_reversed : bool;
  _is_on : bool
}.

(** [__init__]: the mode is set; [turn_off] only prints and sleeps. [None]
    of an object when [set_mode] raises. *)
Definition DigitalOutput_init (port : PyVal) (rev : bool) : M Serial DigitalOutput :=
  fun s =>
    match set_mode port (PyStr "OUTPUT") s with
    | (Ok _, s') => (Ok (mkOutput s' port rev false), s')
    | (Raise e, s') => (Raise e, s')
    | (Blocked, s') => (Blocked, s')
    end.

(** [set]: [_is_on] is assigned after [set_value] has returned. *)
Definition DigitalOutput_set (turn_on : bool) : M DigitalOutput unit :=
  fun self =>
    match set_value (out_port self) (PyBool (xorb turn_on (out_reversed self)))
                    (out_serial self) with
    | (Ok _, s') =>
      (Ok tt, mkOutput s' (out_port self) (out_reversed self) turn_on)
    | (Raise e, s') =>
      (Raise e, mkOutput s' (out_port self) (out_reversed self) (_is_on self))
    | (Blocked, s') =>
      (Blocked, mkOutput s' (out_port self) (out_reversed self) (_is_on self))
    end.

(** [turn_on] and [turn_off] print and sleep; the call of [set] in them
    is commented out. *)
Definition DigitalOutput_turn_on : M DigitalOutput unit := ret tt.

Definition DigitalOutput_turn_off : M DigitalOutput unit := ret tt.

Definition DigitalOutput_toggle : M DigitalOutput bool :=
  fun self =>
    (run DigitalOutput_set (negb (_is_on self)) then
     fun self' => (Ok (_is_on self'), self')) self.

(** ** DigitalInput *)

Definition DigitalInput : Type := CachedValue bool InputFields.

(** [__init__]: the base class is initialised without tracking, then the
    mode is set. *)
Definition DigitalInput_init (port : PyVal) (rev : bool) : M Serial DigitalInput :=
  fun s =>
    match set_mode port (PyStr "INPUT") s with
    | (Ok _, s') => (Ok (mkCached None None false 0%nat (mkInput s' port rev)), s')
    | (Raise e, s') => (Raise e, s')
    | (Blocked, s') => (Blocked, s')
    end.

Definition DigitalInput_value : M DigitalInput (option bool) :=
  value DigitalInput_fetch_value.

Definition DigitalInput_reset : M DigitalInput unit :=
  reset DigitalInput_fetch_value.

(** [self.value and not self.last_value]: the value itself when it is
    falsy. *)
Definition DigitalInput_newly : M DigitalInput (option bool) :=
  fun self =>
    match last_value self with
    | None => (Ok None, self)
    | Some last =>
      (let* v := DigitalInput_value in
       ret match v with
           | Some true => Some (negb last)
           | Some false => Some false
           | None => None
           end) self
    end.

(** [not self.value and self.last_value] *)
Definition DigitalInput_oldly : M DigitalInput (option bool) :=
  fun self =>
    match last_value self with
    | None => (Ok None, self)
    | Some last =>
      (let* v := DigitalInput_value in
       ret match v with
           | Some true => Some false
           | _ => Some last
           end) self
    end.

(** ** DigitalInputMatrix: construction and the edge grids *)

Definition Matrix : Type := CachedValue (list (list bool)) InputFields.

(** [__init__] of [DigitalInputMatrix], which [DigitalInputMatrixSet]
    inherits. *)
Definition DigitalInputMatrix_init {T : Type} (port : PyVal) (rev tracked : bool)
  : M Serial (CachedValue T InputFields) :=
  fun s =>
    match set_mode port (PyStr "MATRIX") s with
    | (Ok _, s') => (Ok (mkCached None None tracked 0%nat (mkInput s' port rev)), s')
    | (Raise e, s') => (Raise e, s')
    | (Blocked, s') => (Blocked, s')
    end.

(** [__init__] of [MoveSensor]: it builds its matrix. *)
Definition MoveSensor_init (port : PyVal) (rev : bool) : M Serial MoveSensor :=
  let* m := DigitalInputMatrix_init port rev true in
  ret (mkCached None None true 0%nat (mkMove m None None)).

(** [g[i][j]] *)
Definition cell (g : list (list bool)) (i j : nat) : outcome bool :=
  match nth_error g i with
  | Some row =>
    match nth_error row j with
    | Some b => Ok b
    | None => Raise IndexError
    end
  | None => Raise IndexError
  end.

(** [[row[j] and not last[i][j] for j in range(len(row))]], from column
    [j] on; [last[i][j]] is read only where [row[j]] is true. *)
Fixpoint newly_cells (last : list (list bool)) (i j : nat) (row : list bool)
  : outcome (list bool) :=
  match row with
  | [] => Ok []
  | v :: r =>
    obind (if v then obind (cell last i j) (fun b => Ok (negb b)) else Ok false)
          (fun x => obind (newly_cells last i (S j) r) (fun xs => Ok (x :: xs)))
  end.

Fixpoint newly_rows (last : list (list bool)) (i : nat) (cur : list (list bool))
  : outcome (list (list bool)) :=
  match cur with
  | [] => Ok []
  | row :: rest =>
    obind (newly_cells last i 0 row)
          (fun x => obind (newly_rows last (S i) rest) (fun xs => Ok (x :: xs)))
  end.

(** [[not row[j] and last[i][j] for j in range(len(row))]]; [last[i][j]]
    is read only where [row[j]] is false. *)
Fixpoint oldly_cells (last : list (list bool)) (i j : nat) (row : list bool)
  : outcome (list bool) :=
  match row with
  | [] => Ok []
  | v :: r =>
    obind (if v then Ok false else cell last i j)
          (fun x => obind (oldly_cells last i (S j) r) (fun xs => Ok (x :: xs)))
  end.

Fixpoint oldly_rows (last : list (list bool)) (i : nat) (cur : list (list bool))
  : outcome (list (list bool)) :=
  match cur with
  | [] => Ok []
  | row :: rest =>
    obind (oldly_cells last i 0 row)
          (fun x => obind (oldly_rows last (S i) rest) (fun xs => Ok (x :: xs)))
  end.

Definition DigitalInputMatrix_value : M Matrix (option (list (list bool))) :=
  value DigitalInputMatrix_fetch_value.

(** [enumerate(self.value)] needs an iterable. *)
Definition DigitalInputMatrix_newly : M Matrix (option (list (list bool))) :=
  fun self =>
    match last_value self with
    | None => (Ok None, self)
    | Some last =>
      (let* v := DigitalInputMatrix_value in
       match v with
       | Some cur => let* g := lift (newly_rows last 0 cur) in ret (Some g)
       | None => raise TypeError
       end) self
    end.

Definition DigitalInputMatrix_oldly : M Matrix (option (list (list bool))) :=
  fun self =>
    match last_value self with
    | None => (Ok None, self)
    | Some last =>
      (let* v := DigitalInputMatrix_value in
       match v with
       | Some cur => let* g := lift (oldly_rows last 0 cur) in ret (Some g)
       | None => raise TypeError
       end) self
    end.

(** ** Serial.wait_for_setup *)

(** One line is read (and printed) when connected. *)
Definition Serial_wait_for_setup : M Serial unit :=
  fun self =>
    if connected self then (let* _line := readline in ret tt) self
    else (Ok tt, self).

(** ** MoveSensor.wait_for_setup *)

(** [[[j in (0, 1, 6, 7) for j in range(8)] for i in range(8)]] *)
Definition _start : list (list bool) :=
  map (fun _ : nat =>
         map (fun j : nat => existsb (Nat.eqb j) [0; 1; 6; 7]%nat) (seq 0 8))
      (seq 0 8).

(** [[[False for _ in range(8)] for _ in range(8)]] *)
Definition no_pieces : list (list bool) :=
  map (fun _ : nat => map (fun _ : nat => false) (seq 0 8)) (seq 0 8).

(** [pieces[i][j] = True], an IndexError outside of the grid. *)
Definition set_piece (pieces : list (list bool)) (p : nat * nat)
  : outcome (list (list bool)) :=
  match pieces !! fst p with
  | Some row =>
    if (snd p <? length row)%nat
    then Ok (<[fst p := <[snd p := true]> row]> pieces)
    else Raise IndexError
  | None => Raise IndexError
  end.

Fixpoint set_pieces (l : list (nat * nat)) (pieces : list (list bool))
  : outcome (list (list bool)) :=
  match l with
  | [] => Ok pieces
  | p :: rest => obind (set_piece pieces p) (set_pieces rest)
  end.

Section Setup.

Variable set_iter : index_set -> list (nat * nat).

(** The loop [for i, j in self._matrix.value]. *)
Definition pieces_of (v : option index_set) : outcome (list (list bool)) :=
  match v with
  | Some s => set_pieces (set_iter s) no_pieces
  | None => Raise TypeError
  end.

(** [wait_for_setup], for at most [fuel] polls: [true] when it returned,
    [false] when it is still polling after them. *)
Fixpoint MoveSensor_wait_for_setup (fuel : nat) : M MoveFields bool :=
  match fuel with
  | O => ret false
  | S k =>
    let* v := on_matrix matrix_value in
    let* pieces := lift (pieces_of v) in
    if bool_decide (pieces = _start) then ret true
    else
      run on_matrix matrix_reset then
      MoveSensor_wait_for_setup k
  end.

End Setup.

(* ===================================================================== *)
(** * Vocabulary of the further statements *)
(* ===================================================================== *)

(** The number written by a sequence of decimal digits, read from the
    left with [acc] as the number read so far. *)
Fixpoint decimal_value (d : Decimal.uint) (acc : Z) : Z :=
  match d with
  | Decimal.Nil => acc
  | Decimal.D0 l => decimal_value l (acc * 10 + 0)
  | Decimal.D1 l => decimal_value l (acc * 10 + 1)
  | Decimal.D2 l => decimal_value l (acc * 10 + 2)
  | Decimal.D3 l => decimal_value l (acc * 10 + 3)
  | Decimal.D4 l => decimal_value l (acc * 10 + 4)
  | Decimal.D5 l => decimal_value l (acc * 10 + 5)
  | Decimal.D6 l => decimal_value l (acc * 10 + 6)
  | Decimal.D7 l => decimal_value l (acc * 10 + 7)
  | Decimal.D8 l => decimal_value l (acc * 10 + 8)
  | Decimal.D9 l => decimal_value l (acc * 10 + 9)
  end.

(** A string that does not go on with a digit or an underscore. *)
Definition ends_number (s : string) : bool :=
  match s with
  | EmptyString => true
  | String c _ =>
    match digit_val c with
    | Some _ => false
    | None => negb (Ascii.eqb c "_")
    end
  end.

Definition is_bool (v : PyVal) : bool :=
  match v with PyBool _ => true | _ => false end.


(** The level character of a [bool]. *)
Definition level (b : bool) : string := if b then "H" else "L".

(** A digital output and a digital input on a string port of the given
    serial object. *)
Definition output_on (s : Serial) (on : bool) : DigitalOutput :=
  mkOutput s (PyStr "A0") false on.

Definition input_on (s : Serial) (cur last : option bool) : DigitalInput :=
  mkCached cur last false 0%nat (mkInput s (PyInt 2) false).

(** What [len] and the loops see of a matrix whose two samples are cached. *)
Definition cached_matrix (cur last : index_set) : MatrixSet :=
  matrix_with closed_serial (Some cur) (Some last).

(** Two grids of the same shape. *)
Definition same_shape (cur last : list (list bool)) : Prop :=
  Forall2 (fun r l : list bool => length r = length l) cur last.

(** The entries of the two edge grids. *)
Definition rising (v l : bool) : bool := v && negb l.

Definition falling (v l : bool) : bool := negb v && l.

Definition grid_matrix (cur last : list (list bool)) : Matrix :=
  mkCached (Some cur) (Some last) false 0%nat (mkInput closed_serial (PyStr "A0") false).

(** The coordinates of the starting layout. *)
Definition start_set : index_set := add_rows 0 _start ∅.

(** A sensor whose matrix has the given sample cached. *)
Definition sensor_showing (s : index_set) : MoveFields :=
  mkMove (matrix_with closed_serial (Some s) None) None None.

(** The 8 x 8 grid with the given entries. *)
Definition grid_of (mem : nat -> nat -> bool) : list (list bool) :=
  map (fun i : nat => map (fun j : nat => mem i j) (seq 0 8)) (seq 0 8).

Definition at_square (i j a b : nat) : bool := (a =? i)%nat && (b =? j)%nat.

Definition start_column (j : nat) : bool := existsb (Nat.eqb j) [0; 1; 6; 7]%nat.

(* ===================================================================== *)
(** * Properties of the transport codec *)
(* ===================================================================== *)

(** ** Enumerating characters *)



(** ** Ports *)







(** ** Validation and formatting of [set_value] *)

Lemma valid_port_str_two_chars (s : string) :
  truthy (is_valid_port (PyStr s)) = true ->
  exists a b, s = String a (String b EmptyString).
Proof.
  destruct s as [| a [| b [| c r]]]; cbn; try discriminate. eauto.
Qed.

Lemma check_inputs_invalid_port (port value mode speed : PyVal) :
  truthy (is_valid_port port) = false ->
  check_inputs port value mode speed = Raise ValueError.
Proof. intros H. unfold check_inputs. rewrite H. reflexivity. Qed.

(** With an integer port, a given value makes [check_inputs] subscript the
    integer. *)
Lemma check_inputs_int_port (port value mode speed : PyVal) (n : Z) :
  as_int port = Some n ->
  truthy (is_valid_port port) = true ->
  is_None value = false ->
  check_inputs port value mode speed = Raise TypeError.
Proof.
  intros Hint Hp Hv. unfold check_inputs. rewrite Hp, Hv. cbn.
  destruct port; try discriminate; reflexivity.
Qed.

Lemma set_value_int_port (port value : PyVal) (n : Z) (self : Serial) :
  as_int port = Some n ->
  truthy (is_valid_port port) = true ->
  is_None value = false ->
  set_value port value self = (Raise TypeError, self).
Proof.
  intros Hint Hp Hv. unfold set_value, bind, lift.
  rewrite (check_inputs_int_port _ _ _ _ _ Hint Hp Hv). reflexivity.
Qed.

Lemma check_inputs_value_str_port (s : string) (value : PyVal) :
  truthy (is_valid_port (PyStr s)) = true ->
  is_valid_value value = true ->
  check_inputs (PyStr s) value PyNone PyNone = Ok tt.
Proof.
  intros Hp Hv. unfold check_inputs. rewrite Hp.
  destruct (valid_port_str_two_chars _ Hp) as [a [b ->]].
  assert (Hn : is_None value = false) by (destruct value; [discriminate | ..]; reflexivity).
  rewrite Hn, Hv. cbn. rewrite andb_false_r. reflexivity.
Qed.

Lemma format_value_valid (value : PyVal) :
  is_valid_value value = true ->
  format_value value = Ok (value_code value).
Proof.
  destruct value as [| b | n |]; cbn; try discriminate.
  - destruct b; reflexivity.
  - intros H. apply andb_true_iff in H as [H0 _].
    replace (n <? 0) with false by lia. reflexivity.
Qed.

(** With a string port, a valid value is written as the frame
    port, colon, value code. *)
Lemma set_value_str_port_frame (s : string) (value : PyVal) (self : Serial) (ch : Channel) :
  truthy (is_valid_port (PyStr s)) = true ->
  is_valid_value value = true ->
  connected self = true ->
  bridge self = Some ch ->
  set_value (PyStr s) value self
  = (Ok tt, after_write self ch (s ++ ":" ++ value_code value)).
Proof.
  intros Hp Hv Hc Hb. unfold set_value, bind, lift.
  rewrite (check_inputs_value_str_port _ _ Hp Hv), Hc.
  rewrite (format_value_valid _ Hv). unfold _write. rewrite Hb. reflexivity.
Qed.

(** The value code of an integer 0..255: one hexadecimal digit below 16,
    two digits (the first not 0) from 16 on; reading it back gives the
    integer. *)
Lemma value_code_hex_table :
  forallb (fun k =>
    let n := Z.of_nat k in
    let code := value_code (PyInt n) in
    (HexString.to_Z ("0x" ++ code) =? n)
    && (if n <? 16 then (String.length code =? 1)%nat
        else (String.length code =? 2)%nat
             && negb (String.eqb (substring 0 1 code) "0"))
    && forallb (fun c => char_in c hex_digit_chars) (list_ascii_of_string code))
    (seq 0 256) = true.
Proof. vm_compute. reflexivity. Qed.

Lemma value_code_hex (n : Z) :
  0 <= n < 256 ->
  HexString.to_Z ("0x" ++ value_code (PyInt n)) = n
  /\ String.length (value_code (PyInt n)) = (if n <? 16 then 1%nat else 2%nat)
  /\ (16 <= n -> substring 0 1 (value_code (PyInt n)) <> "0").
Proof.
  intros Hn. pose proof value_code_hex_table as T.
  rewrite forallb_forall in T.
  specialize (T (Z.to_nat n)). rewrite Z2Nat.id in T by lia.
  assert (Hin : In (Z.to_nat n) (seq 0 256)) by (apply in_seq; lia).
  specialize (T Hin). cbv zeta in T.
  apply andb_true_iff in T as [T _]. apply andb_true_iff in T as [T1 T2].
  apply Z.eqb_eq in T1. split; [exact T1 |].
  destruct (n <? 16) eqn:E.
  - apply Nat.eqb_eq in T2. split; [exact T2 | lia].
  - apply andb_true_iff in T2 as [T2 T3]. apply Nat.eqb_eq in T2.
    split; [exact T2 |]. intros _ Hz. rewrite Hz in T3. discriminate.
Qed.

(** C5. The claim holds for string ports ([set_value_str_port_frame]) and
    fails for every integer port: [set_value(5, True)], which would be
    the frame 05:H, raises TypeError in [check_inputs], where [port[0]]
    subscripts the integer, and nothing is written. *)
Theorem set_value_integer_port_raises :
  truthy (is_valid_port (PyInt 5)) = true
  /\ is_valid_value (PyBool true) = true
  /\ format_port (PyInt 5) = "05"
  /\ format_value (PyBool true) = Ok "H"
  /\ check_inputs (PyInt 5) (PyBool true) PyNone PyNone = Raise TypeError
  /\ set_value (PyInt 5) (PyBool true) (open_serial [])
     = (Raise TypeError, open_serial []).
Proof. repeat split. Qed.

(** ** Validation comes before the write *)

(** An exception of [_write] leaves the object as it was. *)
Lemma _write_raise (msg : string) (self self' : Serial) (e : PyExc) :
  _write msg self = (Raise e, self') -> self' = self.
Proof.
  unfold _write. destruct (bridge self); intros H; inversion H; reflexivity.
Qed.

Lemma set_value_raise (port value : PyVal) (self self' : Serial) (e : PyExc) :
  set_value port value self = (Raise e, self') -> self' = self.
Proof.
  unfold set_value, bind, lift.
  destruct (check_inputs port value PyNone PyNone); [| intros H; inversion H; reflexivity | intros H; inversion H].
  destruct (connected self); [| intros H; inversion H].
  destruct (format_value value); [| intros H; inversion H; reflexivity | intros H; inversion H].
  apply _write_raise.
Qed.

Lemma set_mode_raise (port mode : PyVal) (self self' : Serial) (e : PyExc) :
  set_mode port mode self = (Raise e, self') -> self' = self.
Proof.
  unfold set_mode, bind, lift.
  destruct (check_inputs port PyNone mode PyNone); [| intros H; inversion H; reflexivity | intros H; inversion H].
  destruct (connected self); [| intros H; inversion H].
  apply _write_raise.
Qed.

Lemma set_speed_raise (port speed : PyVal) (self self' : Serial) (e : PyExc) :
  set_speed port speed self = (Raise e, self') -> self' = self.
Proof.
  unfold set_speed, bind, lift, raise.
  destruct (getitem0 port) as [c | |]; [| intros H; inversion H; reflexivity | intros H; inversion H].
  destruct (Ascii.eqb c "M"); [apply set_value_raise |].
  destruct (check_inputs port PyNone PyNone speed); [| intros H; inversion H; reflexivity | intros H; inversion H].
  destruct (negb (Ascii.eqb c "S")); [intros H; inversion H; reflexivity |].
  destruct (connected self); [| intros H; inversion H].
  destruct (format_speed speed); [| intros H; inversion H; reflexivity | intros H; inversion H].
  apply _write_raise.
Qed.

(** A given value that is not valid is refused on every string port but
    the stepper ports. *)
Lemma set_value_invalid_value (s : string) (c : ascii) (value : PyVal) (self : Serial) :
  truthy (is_valid_port (PyStr s)) = true ->
  getitem0 (PyStr s) = Ok c ->
  Ascii.eqb c "S" = false ->
  is_None value = false ->
  is_valid_value value = false ->
  set_value (PyStr s) value self = (Raise ValueError, self).
Proof.
  intros Hp Hc Hs Hn Hv. unfold set_value, bind, lift, check_inputs.
  rewrite Hp, Hn, Hc. cbn [negb obind]. rewrite Hs, Hv. reflexivity.
Qed.

(** C6 (amended). For [set_value], [set_mode] and [set_speed] and every
    combination of arguments, a call that raises has written nothing: the
    serial object is as before the call. On every valid string port other
    than the stepper ports, a given value that is neither a [bool] nor an
    integer in [0,256) makes [set_value] raise ValueError with nothing
    written. (On a stepper port the value is not checked.) *)
Theorem validation_precedes_write (self : Serial) (port x : PyVal) :
  (forall e self',
      set_value port x self = (Raise e, self')
      \/ set_mode port x self = (Raise e, self')
      \/ set_speed port x self = (Raise e, self') ->
      self' = self)
  /\ (forall s c,
         port = PyStr s ->
         truthy (is_valid_port port) = true ->
         getitem0 port = Ok c ->
         Ascii.eqb c "S" = false ->
         is_None x = false ->
         is_valid_value x = false ->
         set_value port x self = (Raise ValueError, self)).
Proof.
  split.
  - intros e self' [H | [H | H]].
    + exact (set_value_raise _ _ _ _ _ H).
    + exact (set_mode_raise _ _ _ _ _ H).
    + exact (set_speed_raise _ _ _ _ _ H).
  - intros s c -> Hp Hc Hs Hn Hv. exact (set_value_invalid_value _ _ _ _ Hp Hc Hs Hn Hv).
Qed.

Lemma validation_precedes_write_witness :
  set_value (PyStr "A0") (PyInt 256) (open_serial [])
  = (Raise ValueError, open_serial [])
  /\ (forall e self',
         set_value (PyStr "A0") (PyInt 256) (open_serial []) = (Raise e, self') ->
         self' = open_serial []).
Proof.
  split.
  - apply (proj2 (validation_precedes_write (open_serial []) (PyStr "A0") (PyInt 256))
                 "A0" "A"%char); reflexivity.
  - intros e self' H.
    apply (proj1 (validation_precedes_write (open_serial []) (PyStr "A0") (PyInt 256))
                 e self'). left. exact H.
Defined.

(** C6 as stated fails on the stepper ports: [set_value('S0', 300)] raises
    nothing and writes the frame S0:12c. *)
Lemma set_value_stepper_unchecked :
  ~ (forall (self : Serial) (port value : PyVal),
        truthy (is_valid_port port) = true ->
        is_valid_value value = false ->
        exists e, set_value port value self = (Raise e, self)).
Proof.
  intros H.
  destruct (H (open_serial []) (PyStr "S0") (PyInt 300) eq_refl eq_refl) as [e He].
  vm_compute in He. discriminate.
Qed.

(** ** Stepper speed *)

Lemma format_speed_int (n : Z) :
  format_speed (PyInt n) = Ok (speed_code n).
Proof. unfold format_speed, speed_code. cbn. destruct (n <? 10); reflexivity. Qed.

Lemma speed_code_table :
  forallb (fun k =>
    let n := Z.of_nat k in
    (String.length (speed_code n) =? (if (n <? 100)%Z then 2 else 3))%nat)
    (seq 1 255) = true.
Proof. vm_compute. reflexivity. Qed.

(** The speed is rendered on two characters below 100 and on three from
    100 to 255. *)
Lemma speed_code_length (n : Z) :
  0 < n < 256 ->
  String.length (speed_code n) = (if n <? 100 then 2%nat else 3%nat).
Proof.
  intros Hn. pose proof speed_code_table as T. rewrite forallb_forall in T.
  specialize (T (Z.to_nat n)). rewrite Z2Nat.id in T by lia.
  apply Nat.eqb_eq, T, in_seq. lia.
Qed.

Lemma set_speed_stepper_frame (s : string) (n : Z) (self : Serial) (ch : Channel) :
  truthy (is_valid_port (PyStr s)) = true ->
  getitem0 (PyStr s) = Ok "S"%char ->
  is_valid_speed (PyInt n) = true ->
  connected self = true ->
  bridge self = Some ch ->
  set_speed (PyStr s) (PyInt n) self
  = (Ok tt, after_write self ch (s ++ "-" ++ speed_code n)).
Proof.
  intros Hp Hs Hv Hc Hb. unfold set_speed, bind, lift, check_inputs.
  rewrite Hs, Hp. cbn [Ascii.eqb]. cbn -[is_valid_speed format_speed].
  rewrite Hv, Hc. cbn -[format_speed]. rewrite format_speed_int.
  unfold _write. rewrite Hb. reflexivity.
Qed.

(** C9. The claim fails from speed 100 on: [is_valid_speed] accepts 100,
    [format_speed] renders it on three characters, and
    [set_speed('S0', 100)] writes the frame S0-100. *)
Theorem set_speed_stepper_three_digits :
  truthy (is_valid_port (PyStr "S0")) = true
  /\ is_valid_speed (PyInt 100) = true
  /\ format_speed (PyInt 100) = Ok "100"
  /\ set_speed (PyStr "S0") (PyInt 100) (open_serial [])
     = (Ok tt, after_write (open_serial []) (mkChannel [] []) "S0-100").
Proof. repeat split. Qed.

(** ** Modes *)

(** MATRIX is not among the modes: [set_mode(port, 'MATRIX')], which the
    constructor of [DigitalInputMatrix] calls, raises on every port. *)
Lemma set_mode_MATRIX_refused (port : PyVal) (self : Serial) :
  set_mode port (PyStr "MATRIX") self = (Raise ValueError, self).
Proof.
  unfold set_mode, bind, lift, check_inputs.
  destruct (truthy (is_valid_port port)); reflexivity.
Qed.

(** ** A serial object that is not connected *)



Lemma set_value_disconnected (port value : PyVal) (self : Serial) :
  connected self = false ->
  set_value port value self = (check_inputs port value PyNone PyNone, self).
Proof.
  intros Hc. unfold set_value, bind, lift.
  destruct (check_inputs port value PyNone PyNone) as [[] | |]; rewrite ?Hc; reflexivity.
Qed.


Lemma set_speed_disconnected (port speed : PyVal) (self : Serial) :
  connected self = false ->
  snd (set_speed port speed self) = self.
Proof.
  intros Hc. unfold set_speed, bind, lift, raise.
  destruct (getitem0 port) as [c | |]; try reflexivity.
  destruct (Ascii.eqb c "M").
  - rewrite set_value_disconnected by exact Hc. reflexivity.
  - destruct (check_inputs port PyNone PyNone speed); try reflexivity.
    destruct (negb (Ascii.eqb c "S")); [reflexivity |]. rewrite Hc. reflexivity.
Qed.





(* ===================================================================== *)
(** * Properties of the cached values *)
(* ===================================================================== *)

Section CachedValueFacts.

Context {T Sub : Type}.
Variable fetch : M Sub (option T).

Lemma value_cached (self : CachedValue T Sub) (v : T) :
  _value self = Some v -> value fetch self = (Ok (Some v), self).
Proof. intros H. unfold value. rewrite H. reflexivity. Qed.

Lemma value_fetch_ok (self : CachedValue T Sub) (v : option T) (sub' : Sub) :
  _value self = None ->
  fetch (fields self) = (Ok v, sub') ->
  value fetch self
  = (Ok v, mkCached v (last_value self) (track self) (S (fetch_calls self)) sub').
Proof.
  intros Hn Hf. unfold value. rewrite Hn.
  unfold bind, count_fetch, on_fields, store_value, ret. cbn. rewrite Hf. reflexivity.
Qed.

(** A fetch that returns [None] is not remembered: the next access
    fetches again. *)
Lemma value_refetches_None (self : CachedValue T Sub) (sub' : Sub) :
  _value self = None ->
  fetch (fields self) = (Ok None, sub') ->
  fetch_calls (snd (value fetch (snd (value fetch self))))
  = S (S (fetch_calls self)).
Proof.
  intros Hn Hf. rewrite (value_fetch_ok _ _ _ Hn Hf). cbn [snd].
  unfold value. cbn [_value]. unfold bind, count_fetch, on_fields. cbn.
  destruct (fetch sub') as [[v | e |] sub'']; reflexivity.
Qed.

(** C8 (amended). At the start of a cycle (nothing cached), when the
    fetch returns a sample other than [None], two accesses to [value]
    make exactly one call of [_fetch_value]: the second access returns
    the cached sample and leaves the object as the first one left it. *)
Theorem value_fetches_once (self : CachedValue T Sub) (v : T) (sub' : Sub) :
  _value self = None ->
  fetch (fields self) = (Ok (Some v), sub') ->
  fst (value fetch self) = Ok (Some v)
  /\ value fetch (snd (value fetch self)) = (Ok (Some v), snd (value fetch self))
  /\ fetch_calls (snd (value fetch (snd (value fetch self))))
     = S (fetch_calls self).
Proof.
  intros Hn Hf. rewrite (value_fetch_ok _ _ _ Hn Hf). cbn [fst snd].
  split; [reflexivity |].
  rewrite value_cached with (v := v) by reflexivity.
  split; reflexivity.
Qed.

End CachedValueFacts.

(** A digital input never fetches [None]: one access fetches, the second
    does not. *)
Lemma value_fetches_once_witness :
  fst (value DigitalInput_fetch_value
             (mkCached None None false 0%nat (mkInput closed_serial (PyInt 2) false)))
  = Ok (Some false)
  /\ fetch_calls
       (snd (value DigitalInput_fetch_value
          (snd (value DigitalInput_fetch_value
             (mkCached None None false 0%nat (mkInput closed_serial (PyInt 2) false))))))
     = 1%nat.
Proof.
  pose proof (value_fetches_once DigitalInput_fetch_value
                (mkCached None None false 0%nat (mkInput closed_serial (PyInt 2) false))
                false (mkInput closed_serial (PyInt 2) false) eq_refl eq_refl)
    as [H1 [_ H3]].
  split; [exact H1 | exact H3].
Defined.

(** C8 as stated fails for a sensor whose fetch returns [None]: an idle
    move sensor fetches at each of the two accesses. *)
Lemma idle_sensor_fetches_twice :
  ~ (forall (self : MoveSensor) (r : option string),
        _value self = None ->
        fst (sensor_value elements self) = Ok r ->
        fetch_calls (snd (sensor_value elements (snd (sensor_value elements self))))
        = S (fetch_calls self)).
Proof.
  intros H. specialize (H idle_sensor None eq_refl eq_refl).
  vm_compute in H. discriminate.
Qed.

(* ===================================================================== *)
(** * Properties of the move inference *)
(* ===================================================================== *)

Lemma index_to_move_table :
  forallb (fun p =>
    forallb (fun q =>
      implb (String.eqb (_index_to_move p) (_index_to_move q)) (same_square p q))
      board) board = true.
Proof. vm_compute. reflexivity. Qed.

Lemma on_board_in (p : nat * nat) : on_board p -> In p board.
Proof.
  destruct p as [i j]. intros [Hi Hj]. cbn in Hi, Hj.
  apply in_prod; apply in_seq; lia.
Qed.

(** On the board, two squares with the same name are the same square. *)
Lemma index_to_move_inj (p q : nat * nat) :
  on_board p -> on_board q -> _index_to_move p = _index_to_move q -> p = q.
Proof.
  intros Hp Hq E. pose proof index_to_move_table as T.
  rewrite forallb_forall in T. specialize (T p (on_board_in p Hp)).
  rewrite forallb_forall in T. specialize (T q (on_board_in q Hq)).
  rewrite E, String.eqb_refl in T. cbn in T. unfold same_square in T.
  apply andb_true_iff in T as [T1 T2].
  apply Nat.eqb_eq in T1, T2. destruct p, q. cbn in T1, T2. congruence.
Qed.

Lemma index_to_move_eqb (p q : nat * nat) :
  on_board p -> on_board q ->
  String.eqb (_index_to_move p) (_index_to_move q) = bool_decide (p = q).
Proof.
  intros Hp Hq. case_bool_decide as E.
  - subst. apply String.eqb_refl.
  - apply String.eqb_neq. intros H. apply E. exact (index_to_move_inj _ _ Hp Hq H).
Qed.

Section MoveInference.

Variable set_iter : index_set -> list (nat * nat).

(** Iterating over a set yields its elements, each once. *)
Hypothesis set_iter_perm : forall s : index_set, set_iter s ≡ₚ elements s.

Lemma set_iter_size (s : index_set) : length (set_iter s) = size s.
Proof. rewrite (Permutation_length (set_iter_perm s)). reflexivity. Qed.

(** With both samples cached, [newly()] is their difference and the
    matrix is left as it was. *)
Lemma matrix_newly_cached (m : MatrixSet) (cur last : index_set) :
  _value m = Some cur ->
  last_value m = Some last ->
  matrix_newly m = (Ok (Some (cur ∖ last)), m).
Proof.
  intros Hc Hl. unfold matrix_newly. rewrite Hl.
  unfold bind, matrix_value. rewrite (value_cached _ _ _ Hc). reflexivity.
Qed.

(** The placement step of [_fetch_value], for any pending lifts. *)
Lemma fetch_value_placement (ms : MoveFields) (pu : string)
      (cur last : index_set) (p : nat * nat) (rest : list (nat * nat)) :
  pick_up ms = Some pu ->
  _value (_matrix ms) = Some cur ->
  last_value (_matrix ms) = Some last ->
  set_iter (cur ∖ last) = p :: rest ->
  MoveSensor_fetch_value set_iter ms
  = (Ok match prev_pick_up ms with
        | None =>
          if String.eqb (_index_to_move p) pu then None
          else Some (pu ++ _index_to_move p)%string
        | Some prev =>
          if String.eqb pu (_index_to_move p)
          then Some (prev ++ _index_to_move p)%string else None
        end,
     idle ms).
Proof.
  intros Hp Hc Hl Hi. unfold MoveSensor_fetch_value. rewrite Hp.
  unfold bind at 1. unfold on_matrix.
  rewrite (matrix_newly_cached _ _ _ Hc Hl).
  unfold bind, lift, len, first_of, ret, clear_pending.
  assert (Hs : (0 <? size (cur ∖ last))%nat = true).
  { rewrite <- set_iter_size, Hi. reflexivity. }
  rewrite Hs, Hi. reflexivity.
Qed.

(** C2. One square [s] lifted, and a square [p] newly appears: when [p]
    is [s] nothing is emitted, otherwise the move from [s] to [p] is
    emitted; in both cases no lift stays pending. *)
Theorem one_lifted_placement (ms : MoveFields) (s p : nat * nat)
        (cur last : index_set) (rest : list (nat * nat)) :
  on_board s -> on_board p ->
  pick_up ms = Some (_index_to_move s) ->
  prev_pick_up ms = None ->
  _value (_matrix ms) = Some cur ->
  last_value (_matrix ms) = Some last ->
  set_iter (cur ∖ last) = p :: rest ->
  MoveSensor_fetch_value set_iter ms
  = (Ok (if bool_decide (p = s) then None
         else Some (_index_to_move s ++ _index_to_move p)%string),
     idle ms).
Proof.
  intros Hs Hp Hpu Hprev Hc Hl Hi.
  rewrite (fetch_value_placement _ _ _ _ _ _ Hpu Hc Hl Hi), Hprev.
  rewrite (index_to_move_eqb _ _ Hp Hs). reflexivity.
Qed.

(** C1 (amended). Two squares lifted, [first] then [second], and a square
    [p] newly appears: when [p] is the second-lifted square the move from
    [first] to [p] is emitted, otherwise nothing is emitted; in both
    cases no lift stays pending. (The move is the string of the two
    square names; it carries no capture flag.) *)
Theorem two_lifted_placement (ms : MoveFields) (first second p : nat * nat)
        (cur last : index_set) (rest : list (nat * nat)) :
  on_board second -> on_board p ->
  pick_up ms = Some (_index_to_move second) ->
  prev_pick_up ms = Some (_index_to_move first) ->
  _value (_matrix ms) = Some cur ->
  last_value (_matrix ms) = Some last ->
  set_iter (cur ∖ last) = p :: rest ->
  MoveSensor_fetch_value set_iter ms
  = (Ok (if bool_decide (p = second)
         then Some (_index_to_move first ++ _index_to_move p)%string
         else None),
     idle ms).
Proof.
  intros Hs Hp Hpu Hprev Hc Hl Hi.
  rewrite (fetch_value_placement _ _ _ _ _ _ Hpu Hc Hl Hi), Hprev.
  rewrite (index_to_move_eqb _ _ Hs Hp).
  destruct (bool_decide_reflect (second = p)) as [-> | Hne].
  - rewrite bool_decide_eq_true_2 by reflexivity. reflexivity.
  - rewrite bool_decide_eq_false_2 by congruence. reflexivity.
Qed.

End MoveInference.

Lemma elements_perm (s : index_set) : elements s ≡ₚ elements s.
Proof. reflexivity. Qed.

(** Lift at e2, then e4 appears: the move e2e4; then e2 appears again
    instead: no move. *)
Lemma one_lifted_placement_witness :
  MoveSensor_fetch_value elements (one_lifted (4, 1)%nat {[ (4, 3)%nat ]} ∅)
  = (Ok (Some "e2e4"), idle (one_lifted (4, 1)%nat {[ (4, 3)%nat ]} ∅))
  /\ MoveSensor_fetch_value elements (one_lifted (4, 1)%nat {[ (4, 1)%nat ]} ∅)
     = (Ok None, idle (one_lifted (4, 1)%nat {[ (4, 1)%nat ]} ∅)).
Proof.
  split.
  - apply (one_lifted_placement elements elements_perm
             (one_lifted (4, 1)%nat {[ (4, 3)%nat ]} ∅) (4, 1)%nat (4, 3)%nat
             {[ (4, 3)%nat ]} ∅ []);
      first [reflexivity | split; cbn; lia].
  - apply (one_lifted_placement elements elements_perm
             (one_lifted (4, 1)%nat {[ (4, 1)%nat ]} ∅) (4, 1)%nat (4, 1)%nat
             {[ (4, 1)%nat ]} ∅ []);
      first [reflexivity | split; cbn; lia].
Defined.

(** Lifts at e4 then d5, then d5 appears: the move e4d5. *)
Lemma two_lifted_placement_witness :
  MoveSensor_fetch_value elements
    (two_lifted (4, 3)%nat (3, 4)%nat {[ (3, 4)%nat ]} ∅)
  = (Ok (Some "e4d5"), idle (two_lifted (4, 3)%nat (3, 4)%nat {[ (3, 4)%nat ]} ∅)).
Proof.
  apply (two_lifted_placement elements elements_perm
           (two_lifted (4, 3)%nat (3, 4)%nat {[ (3, 4)%nat ]} ∅)
           (4, 3)%nat (3, 4)%nat (3, 4)%nat {[ (3, 4)%nat ]} ∅ []);
    first [reflexivity | split; cbn; lia].
Defined.

(** C1 as stated fails. Lifts at e4 then d5, then e4 appears again: the
    claim has the machine go back to one lift pending (d5); the code
    clears both. *)
Lemma two_lifted_put_back :
  ~ (forall (set_iter : index_set -> list (nat * nat)) (ms : MoveFields)
            (first second p : nat * nat) (cur last : index_set)
            (rest : list (nat * nat)),
        (forall s : index_set, set_iter s ≡ₚ elements s) ->
        on_board first -> on_board second -> on_board p ->
        pick_up ms = Some (_index_to_move second) ->
        prev_pick_up ms = Some (_index_to_move first) ->
        _value (_matrix ms) = Some cur ->
        last_value (_matrix ms) = Some last ->
        set_iter (cur ∖ last) = p :: rest ->
        MoveSensor_fetch_value set_iter ms
        = if bool_decide (p = first)
          then (Ok None, mkMove (_matrix ms) (Some (_index_to_move second)) None)
          else (Ok (Some (_index_to_move first ++ _index_to_move p)%string),
                idle ms)).
Proof.
  intros H.
  specialize (H elements (two_lifted (4, 3)%nat (3, 4)%nat {[ (4, 3)%nat ]} ∅)
                (4, 3)%nat (3, 4)%nat (4, 3)%nat {[ (4, 3)%nat ]} ∅ []
                elements_perm).
  assert (B : forall i j, (i < 8)%nat -> (j < 8)%nat -> on_board (i, j))
    by (intros; split; assumption).
  specialize (H (B 4 3 ltac:(lia) ltac:(lia)) (B 3 4 ltac:(lia) ltac:(lia))
                (B 4 3 ltac:(lia) ltac:(lia)) eq_refl eq_refl eq_refl eq_refl eq_refl)%nat.
  vm_compute in H. discriminate.
Qed.

(* ===================================================================== *)
(** * Properties of the matrix fetch *)
(* ===================================================================== *)

(** ** What [int] accepts *)

Lemma lstrip_chars (s : string) :
  str_forall int_char (lstrip s) = true -> str_forall int_char s = true.
Proof.
  induction s as [| c r IH]; [reflexivity |]. cbn [lstrip].
  destruct (is_space c) eqn:E.
  - intros H. cbn. unfold int_char at 1. rewrite E. cbn. exact (IH H).
  - intros H. exact H.
Qed.

Lemma all_space_chars (s : string) :
  all_space s = true -> str_forall int_char s = true.
Proof.
  induction s as [| c r IH]; [reflexivity |]. cbn.
  intros H. apply andb_true_iff in H as [H1 H2].
  unfold int_char at 1. rewrite H1. cbn. exact (IH H2).
Qed.

Lemma digit_int_char (c : ascii) (d : Z) :
  digit_val c = Some d -> int_char c = true.
Proof.
  intros H. unfold int_char. rewrite H. cbn. rewrite orb_true_r. reflexivity.
Qed.

Lemma digits_tail_chars (k : nat) :
  forall (s : string) (acc n : Z) (rest : string),
    (String.length s <= k)%nat ->
    digits_tail s acc = Some (n, rest) ->
    str_forall int_char rest = true ->
    str_forall int_char s = true.
Proof.
  induction k as [| k IH]; intros s acc n rest Hlen Hd Hrest.
  - destruct s; [reflexivity | cbn in Hlen; lia].
  - destruct s as [| c r]; [reflexivity |]. cbn in Hlen. cbn [digits_tail] in Hd.
    destruct (digit_val c) as [d |] eqn:Ec.
    + cbn. rewrite (digit_int_char _ _ Ec). cbn.
      apply (IH r (acc * 10 + d) n rest); [lia | exact Hd | exact Hrest].
    + destruct (Ascii.eqb c "_") eqn:Eu.
      * apply Ascii.eqb_eq in Eu. subst c.
        destruct r as [| c2 r2]; [discriminate |].
        destruct (digit_val c2) as [d |] eqn:Ec2; [| discriminate].
        cbn. rewrite (digit_int_char _ _ Ec2). cbn.
        cbn in Hlen. apply (IH r2 (acc * 10 + d) n rest); [lia | exact Hd | exact Hrest].
      * injection Hd as _ <-. exact Hrest.
Qed.

Lemma unsigned_literal_chars (s : string) (n : Z) :
  unsigned_literal s = Some n -> str_forall int_char s = true.
Proof.
  destruct s as [| c r]; [discriminate |]. cbn [unsigned_literal].
  destruct (digit_val c) as [d |] eqn:Ec; [| discriminate].
  destruct (digits_tail r d) as [[m rest] |] eqn:Ed; [| discriminate].
  destruct (all_space rest) eqn:Es; [| discriminate]. intros _.
  cbn. rewrite (digit_int_char _ _ Ec). cbn.
  apply (digits_tail_chars (String.length r) r d m rest);
    [lia | exact Ed | apply all_space_chars, Es].
Qed.

(** A string accepted by [int] is made of whitespace, signs, digits and
    underscores. *)
Lemma int_of_str_chars (s : string) (n : Z) :
  int_of_str s = Some n -> str_forall int_char s = true.
Proof.
  unfold int_of_str. destruct (int_max_str_digits <? count_digits s); [discriminate |].
  unfold int_literal. intros H. apply lstrip_chars.
  destruct (lstrip s) as [| c r] eqn:E; [discriminate |].
  destruct (Ascii.eqb c "+") eqn:Ep.
  - apply Ascii.eqb_eq in Ep. subst c.
    apply unsigned_literal_chars in H. cbn. exact H.
  - destruct (Ascii.eqb c "-") eqn:Em.
    + apply Ascii.eqb_eq in Em. subst c.
      destruct (unsigned_literal r) as [m |] eqn:Eu; [| discriminate].
      apply unsigned_literal_chars in Eu. cbn. exact Eu.
    + assert (Hu : unsigned_literal (String c r) = Some n).
      { destruct c as [[] [] [] [] [] [] [] []]; try exact H; discriminate. }
      exact (unsigned_literal_chars _ _ Hu).
Qed.

Lemma int_char_not_semicolon (s : string) :
  str_forall int_char s = true -> str_forall not_semicolon s = true.
Proof.
  induction s as [| c r IH]; [reflexivity |]. cbn [str_forall].
  intros H. apply andb_true_iff in H as [H1 H2]. rewrite (IH H2), andb_true_r.
  unfold not_semicolon. destruct (Ascii.eqb c ";") eqn:E; [| reflexivity].
  apply Ascii.eqb_eq in E. subst c. discriminate.
Qed.

(** ** Splitting a line into rows *)

Lemma split_no_separator (s : string) :
  str_forall not_semicolon s = true -> split ";" s = [s].
Proof.
  induction s as [| c r IH]; [reflexivity |]. cbn [split str_forall].
  intros H. apply andb_true_iff in H as [H1 H2].
  unfold not_semicolon in H1. apply negb_true_iff in H1. rewrite H1.
  rewrite (IH H2). reflexivity.
Qed.


(** A line without separator decodes to no row at all. *)
Lemma decode_rows_no_separator (rev : bool) (s : string) :
  str_forall not_semicolon s = true -> decode_rows rev s = [].
Proof.
  intros H. unfold decode_rows. rewrite (split_no_separator _ H). reflexivity.
Qed.

(** A line that [int] accepts has no row. *)
Lemma int_line_no_rows (rev : bool) (line : string) (n : Z) :
  int_of_str line = Some n -> decode_rows rev line = [].
Proof.
  intros H. apply decode_rows_no_separator, int_char_not_semicolon.
  exact (int_of_str_chars _ _ H).
Qed.


Lemma append_cons (c : ascii) (r s : string) :
  (String c r ++ s)%string = String c (r ++ s).
Proof. reflexivity. Qed.




(** The line of a grid with at least one row is not accepted by [int]. *)
Lemma grid_line_not_int (row : list bool) (rows : list (list bool)) (line_end : string) :
  int_of_str (render_rows (row :: rows) line_end) = None.
Proof.
  destruct (int_of_str _) as [n |] eqn:E; [| reflexivity].
  apply int_of_str_chars, int_char_not_semicolon in E.
  cbn [render_rows] in E. exfalso. revert E.
  induction (render_row row) as [| c r IH]; cbn.
  - discriminate.
  - intros H. apply andb_true_iff in H as [_ H]. exact (IH H).
Qed.

(** ** The fetch through [get_value] *)

Lemma get_value_line (port : PyVal) (self : Serial) (ch : Channel)
      (line : string) (rest : list string) :
  connected self = true ->
  bridge self = Some ch ->
  incoming ch = line :: rest ->
  get_value port self
  = if truthy (is_valid_port port)
    then (match int_of_str line with
          | Some n => Ok (PyInt n)
          | None => Raise ValueError
          end, after_request port ch rest)
    else (Raise ValueError, self).
Proof.
  intros Hc Hb Hi. unfold get_value, bind, lift, check_inputs.
  destruct (truthy (is_valid_port port)); [| reflexivity]. cbn.
  rewrite Hc. unfold _write, readline. rewrite Hb. cbn. rewrite Hi, Hc.
  unfold after_request. destruct (int_of_str line); reflexivity.
Qed.

(** [get_value] returns an integer or [None], never a string. *)
Lemma get_value_not_str (port : PyVal) (self self' : Serial) (s : string) :
  get_value port self <> (Ok (PyStr s), self').
Proof.
  unfold get_value, bind, lift, ret, raise.
  destruct (check_inputs port PyNone PyNone PyNone); try discriminate.
  destruct (connected self); try discriminate.
  destruct (_write (py_str port ++ "?") self) as [[[] | |] s1]; try discriminate.
  destruct (readline s1) as [[line | |] s2]; try discriminate.
  destruct (int_of_str line); discriminate.
Qed.

(** So the matrix fetch never returns a grid. *)
Lemma matrix_fetch_never_returns (f f' : InputFields) (grid : option (list (list bool))) :
  DigitalInputMatrix_fetch_value f <> (Ok grid, f').
Proof.
  unfold DigitalInputMatrix_fetch_value, bind, on_serial, ret, raise.
  destruct (get_value (port f) (serial f)) as [[v | |] s1] eqn:E; try discriminate.
  destruct v; try discriminate.
  exfalso. exact (get_value_not_str _ _ _ _ E).
Qed.

(** With a line waiting on a connected serial object, the matrix fetch
    raises: ValueError for a line that [int] refuses (and for an invalid
    port), AttributeError for a line that is an integer, which has no row. *)
Lemma matrix_fetch_line (f : InputFields) (ch : Channel) (line : string)
      (rest : list string) :
  connected (serial f) = true ->
  bridge (serial f) = Some ch ->
  incoming ch = line :: rest ->
  exists e f',
    DigitalInputMatrix_fetch_value f = (Raise e, f')
    /\ (e = ValueError
        \/ (e = AttributeError /\ decode_rows (reversed f) line = [])).
Proof.
  intros Hc Hb Hi.
  unfold DigitalInputMatrix_fetch_value, bind, on_serial, raise.
  rewrite (get_value_line _ _ _ _ _ Hc Hb Hi).
  destruct (truthy (is_valid_port (port f))).
  - destruct (int_of_str line) as [n |] eqn:E.
    + eexists _, _. split; [reflexivity |]. right. split; [reflexivity |].
      exact (int_line_no_rows _ _ _ E).
    + eexists _, _. split; [reflexivity |]. left. reflexivity.
  - eexists _, _. split; [reflexivity |]. left. reflexivity.
Qed.

Lemma matrix_set_fetch_raise (f f' : InputFields) (e : PyExc) :
  DigitalInputMatrix_fetch_value f = (Raise e, f') ->
  DigitalInputMatrixSet_fetch_value f = (Raise e, f').
Proof.
  intros H. unfold DigitalInputMatrixSet_fetch_value, bind. rewrite H. reflexivity.
Qed.

(** C4. The claim fails on every line of a grid; here on the line of the
    starting layout, eight rows of eight characters: [get_value] writes
    the request, reads the line and raises ValueError at [int(line)], so
    the fetch returns no grid. ([decode_rows_render] shows what the
    decoding loop makes of the line once it is handed the string.) *)
Theorem matrix_fetch_rejects_grid_line :
  decode_rows false start_line = start_grid
  /\ int_of_str start_line = None
  /\ DigitalInputMatrix_fetch_value
       (mkInput (open_serial [start_line]) (PyStr "A0") false)
     = (Raise ValueError,
        mkInput (after_request (PyStr "A0") (mkChannel [] [start_line]) [])
                (PyStr "A0") false).
Proof. repeat split. Qed.

(* ===================================================================== *)
(** * A fetch that raises, seen from the move sensor *)
(* ===================================================================== *)

Section FailingFetch.

Variable set_iter : index_set -> list (nat * nat).










End FailingFetch.



(* ===================================================================== *)
(** * Reading back what [str] prints *)
(* ===================================================================== *)

Lemma all_space_ends_number (ws : string) :
  all_space ws = true -> ends_number ws = true.
Proof.
  destruct ws as [| c r]; [reflexivity |]. cbn [all_space ends_number].
  intros H. apply andb_true_iff in H as [H _]. revert H.
  destruct c as [[] [] [] [] [] [] [] []]; vm_compute; congruence.
Qed.

Lemma digits_tail_stop (s : string) (acc : Z) :
  ends_number s = true -> digits_tail s acc = Some (acc, s).
Proof.
  destruct s as [| c r]; [reflexivity |]. cbn [ends_number digits_tail].
  destruct (digit_val c); [discriminate |].
  intros H. apply negb_true_iff in H. rewrite H. reflexivity.
Qed.

(** The digits printed for [d], followed by something that is not part
    of a number, are read as the number they write. *)
Lemma digits_tail_printed (d : Decimal.uint) (rest : string) :
  ends_number rest = true ->
  forall acc : Z,
    digits_tail (NilEmpty.string_of_uint d ++ rest) acc
    = Some (decimal_value d acc, rest).
Proof.
  intros Hr. induction d; intros acc;
    cbn [NilEmpty.string_of_uint decimal_value];
    rewrite ?append_cons; try (cbn [digits_tail digit_val]; apply IHd).
  apply digits_tail_stop, Hr.
Qed.

Lemma decimal_value_pos (d : Decimal.uint) (acc : positive) :
  decimal_value d (Zpos acc) = Zpos (Pos.of_uint_acc d acc).
Proof.
  revert acc. induction d; intros acc; cbn [decimal_value Pos.of_uint_acc];
    [reflexivity | ..];
    match goal with
    | |- decimal_value _ ?z = Zpos (Pos.of_uint_acc _ ?p) =>
      replace z with (Zpos p) by lia
    end; apply IHd.
Qed.

Lemma decimal_value_zero (d : Decimal.uint) :
  decimal_value d 0 = Z.of_N (Pos.of_uint d).
Proof.
  induction d; cbn [decimal_value Pos.of_uint]; [reflexivity | exact IHd | ..];
    exact (decimal_value_pos d _).
Qed.

Lemma unsigned_literal_digit (c : ascii) (k : Z) (r : string) :
  digit_val c = Some k ->
  unsigned_literal (String c r)
  = match digits_tail r k with
    | Some (n, rest) => if all_space rest then Some n else None
    | None => None
    end.
Proof. intros H. cbn [unsigned_literal]. rewrite H. reflexivity. Qed.

Lemma unsigned_literal_printed (p : positive) (ws : string) :
  all_space ws = true ->
  unsigned_literal (NilEmpty.string_of_uint (Pos.to_uint p) ++ ws) = Some (Zpos p).
Proof.
  intros Hws.
  assert (Hv : decimal_value (Pos.to_uint p) 0 = Zpos p).
  { rewrite decimal_value_zero, DecimalPos.Unsigned.of_to. reflexivity. }
  pose proof (all_space_ends_number _ Hws) as He.
  destruct (Pos.to_uint p) as [| d | d | d | d | d | d | d | d | d | d];
    cbn [NilEmpty.string_of_uint decimal_value] in Hv |- *;
    [discriminate | ..];
    rewrite append_cons;
    match goal with
    | |- unsigned_literal (String ?c _) = _ =>
      rewrite (unsigned_literal_digit c (Z.of_nat (nat_of_ascii c) - 48) _ eq_refl)
    end;
    rewrite (digits_tail_printed d ws He), Hws; exact (f_equal Some Hv).
Qed.

Lemma printed_first_char (p : positive) :
  exists c r,
    NilEmpty.string_of_uint (Pos.to_uint p) = String c r
    /\ is_space c = false /\ Ascii.eqb c "+" = false /\ Ascii.eqb c "-" = false.
Proof.
  pose proof (DecimalPos.Unsigned.of_to p) as Hp.
  destruct (Pos.to_uint p); cbn [NilEmpty.string_of_uint];
    [cbn in Hp; discriminate | ..]; eexists _, _; repeat split.
Qed.

Lemma int_literal_unsigned (c : ascii) (r : string) :
  is_space c = false -> Ascii.eqb c "+" = false -> Ascii.eqb c "-" = false ->
  int_literal (String c r) = unsigned_literal (String c r).
Proof.
  intros Hs Hp Hm. unfold int_literal. cbn [lstrip]. rewrite Hs.
  destruct c as [[] [] [] [] [] [] [] []]; try reflexivity; discriminate.
Qed.

(** The literal printed for [n], followed by whitespace, is read as [n]. *)
Lemma int_literal_printed (n : Z) (ws : string) :
  all_space ws = true ->
  int_literal (str_of_Z n ++ ws) = Some n.
Proof.
  intros Hws. unfold str_of_Z. destruct n as [| p | p].
  - change (NilZero.string_of_int (Z.to_int 0) ++ ws)%string with (String "0" ws).
    rewrite int_literal_unsigned by reflexivity.
    rewrite (unsigned_literal_digit "0" 0 _ eq_refl).
    rewrite (digits_tail_stop _ _ (all_space_ends_number _ Hws)), Hws. reflexivity.
  - cbn [Z.to_int NilZero.string_of_int]. unfold NilZero.string_of_uint.
    destruct (printed_first_char p) as [c [r [E [Hs [Hp Hm]]]]].
    pose proof (unsigned_literal_printed p ws Hws) as U.
    destruct (Pos.to_uint p) eqn:Eu; [discriminate | ..];
      rewrite <- Eu in *; rewrite E in *; rewrite append_cons in *;
      rewrite (int_literal_unsigned _ _ Hs Hp Hm); exact U.
  - cbn [Z.to_int NilZero.string_of_int]. unfold NilZero.string_of_uint.
    pose proof (unsigned_literal_printed p ws Hws) as U.
    assert (E : forall t, int_literal (String "-" t) = option_map Z.opp (unsigned_literal t))
      by reflexivity.
    destruct (Pos.to_uint p) eqn:Eu;
      [pose proof (DecimalPos.Unsigned.of_to p) as Hp; rewrite Eu in Hp; discriminate | ..];
      rewrite <- Eu in *; rewrite append_cons, E, U; reflexivity.
Qed.

(** ** Counting the digits *)

Lemma count_digits_app (a b : string) :
  count_digits (a ++ b) = count_digits a + count_digits b.
Proof.
  induction a as [| c r IH]; [reflexivity |].
  rewrite append_cons. cbn [count_digits]. rewrite IH.
  destruct (digit_val c); lia.
Qed.

Lemma count_digits_space (ws : string) :
  all_space ws = true -> count_digits ws = 0.
Proof.
  induction ws as [| c r IH]; [reflexivity |]. cbn [all_space count_digits].
  intros H. apply andb_true_iff in H as [Hc Hr]. rewrite (IH Hr).
  destruct (digit_val c) eqn:E; [| reflexivity].
  exfalso. revert Hc E.
  destruct c as [[] [] [] [] [] [] [] []]; vm_compute; congruence.
Qed.

Lemma count_digits_digit (c : ascii) (k : Z) (r : string) :
  digit_val c = Some k -> count_digits (String c r) = 1 + count_digits r.
Proof. intros H. cbn [count_digits]. rewrite H. reflexivity. Qed.

Lemma count_digits_uint (d : Decimal.uint) :
  count_digits (NilEmpty.string_of_uint d)
  = Z.of_nat (String.length (NilEmpty.string_of_uint d)).
Proof.
  induction d; cbn [NilEmpty.string_of_uint]; [reflexivity | ..];
    match goal with
    | |- count_digits (String ?c _) = _ =>
      rewrite (count_digits_digit c (Z.of_nat (nat_of_ascii c) - 48) _ eq_refl)
    end;
    cbn [String.length]; rewrite IHd; lia.
Qed.

(** The digits of the rendering of [n] are those of its absolute value. *)
Lemma count_digits_printed (n : Z) :
  count_digits (str_of_Z n) = Z.of_nat (String.length (str_of_Z (Z.abs n))).
Proof.
  assert (Hpos : forall p, count_digits (str_of_Z (Zpos p))
                           = Z.of_nat (String.length (str_of_Z (Zpos p)))).
  { intros p. unfold str_of_Z. cbn [Z.to_int NilZero.string_of_int].
    unfold NilZero.string_of_uint.
    destruct (Pos.to_uint p); [reflexivity | ..]; apply count_digits_uint. }
  destruct n as [| p | p]; [reflexivity | apply Hpos |].
  change (Z.abs (Zneg p)) with (Zpos p). rewrite <- (Hpos p). reflexivity.
Qed.

(** [int(str(n) + ws)] is [n], for every integer [n] of at most 4300
    digits and every run of whitespace [ws], such as the end of a line. *)
Lemma int_of_str_printed (n : Z) (ws : string) :
  all_space ws = true ->
  (Z.of_nat (String.length (str_of_Z (Z.abs n))) <=? int_max_str_digits) = true ->
  int_of_str (str_of_Z n ++ ws) = Some n.
Proof.
  intros Hws Hn. unfold int_of_str.
  rewrite count_digits_app, count_digits_printed, (count_digits_space _ Hws).
  replace (int_max_str_digits <? _ + 0) with false
    by (symmetry; apply Z.ltb_ge; apply Z.leb_le in Hn; lia).
  apply int_literal_printed, Hws.
Qed.

(* ===================================================================== *)
(** * Further properties of the transport codec *)
(* ===================================================================== *)

(** X1. On a connected serial object and a valid port, when the reply is
    the decimal rendering of an integer [n] of at most 4300 digits (the
    limit of [int]) followed by whitespace (the end of the line),
    [get_value] returns [n]; it has written the request (the port as [str]
    renders it, then a question mark) and consumed that one line. *)
Theorem get_value_reads_decimal (port : PyVal) (self : Serial) (ch : Channel)
        (n : Z) (ws : string) (rest : list string) :
  truthy (is_valid_port port) = true ->
  connected self = true ->
  bridge self = Some ch ->
  incoming ch = (str_of_Z n ++ ws)%string :: rest ->
  all_space ws = true ->
  (Z.of_nat (String.length (str_of_Z (Z.abs n))) <=? int_max_str_digits) = true ->
  get_value port self = (Ok (PyInt n), after_request port ch rest).
Proof.
  intros Hp Hc Hb Hi Hws Hn.
  rewrite (get_value_line _ _ _ _ _ Hc Hb Hi), Hp.
  rewrite (int_of_str_printed _ _ Hws Hn). reflexivity.
Qed.

Lemma get_value_reads_decimal_witness :
  get_value (PyInt 12) (open_serial ["255" ++ newline; "0"])
  = (Ok (PyInt 255),
     after_request (PyInt 12) (mkChannel [] ["255" ++ newline; "0"]) ["0"]).
Proof.
  apply (get_value_reads_decimal (PyInt 12) (open_serial ["255" ++ newline; "0"])
           (mkChannel [] ["255" ++ newline; "0"]) 255 newline ["0"]);
    reflexivity.
Defined.

(** X2. A reply with any character that is not a digit, a sign, an
    underscore or whitespace makes [get_value] raise ValueError; unlike
    the set operations it has then already written its request and
    consumed the line. *)
Theorem get_value_bad_reply (port : PyVal) (self : Serial) (ch : Channel)
        (line : string) (rest : list string) :
  truthy (is_valid_port port) = true ->
  connected self = true ->
  bridge self = Some ch ->
  incoming ch = line :: rest ->
  str_forall int_char line = false ->
  get_value port self = (Raise ValueError, after_request port ch rest).
Proof.
  intros Hp Hc Hb Hi Hbad.
  rewrite (get_value_line _ _ _ _ _ Hc Hb Hi), Hp.
  destruct (int_of_str line) as [n |] eqn:E; [| reflexivity].
  rewrite (int_of_str_chars _ _ E) in Hbad. discriminate.
Qed.

Lemma get_value_bad_reply_witness :
  get_value (PyStr "A0") (open_serial ["0x1f"])
  = (Raise ValueError, after_request (PyStr "A0") (mkChannel [] ["0x1f"]) []).
Proof.
  apply (get_value_bad_reply (PyStr "A0") (open_serial ["0x1f"])
           (mkChannel [] ["0x1f"]) "0x1f" []); reflexivity.
Defined.


Lemma format_port_int_table :
  forallb (fun k => (String.length (format_port (PyInt (Z.of_nat k))) =? 2)%nat)
          (seq 0 14) = true.
Proof. vm_compute. reflexivity. Qed.

(** A valid port that is an [int] or a [str] is written on two
    characters. *)
Lemma format_port_length (port : PyVal) :
  truthy (is_valid_port port) = true ->
  is_bool port = false ->
  String.length (format_port port) = 2%nat.
Proof.
  intros Hp Hb. destruct port as [| b | n | s]; try discriminate.
  - cbn in Hp. pose proof format_port_int_table as T.
    rewrite forallb_forall in T. specialize (T (Z.to_nat n)).
    rewrite Z2Nat.id in T by lia. apply Nat.eqb_eq, T, in_seq. lia.
  - destruct (valid_port_str_two_chars _ Hp) as [a [b ->]]. reflexivity.
Qed.

Lemma mode_code_cases (m : string) :
  in_MODES (PyStr m) || in_MODES_values (PyStr m) = true ->
  exists c : ascii,
    format_mode (PyStr m) = PyStr (String c EmptyString)
    /\ in_MODES_values (PyStr (String c EmptyString)) = true.
Proof.
  intros H. apply orb_true_iff in H as [H | H].
  - cbn in H. repeat (apply orb_true_iff in H as [H | H];
      [apply String.eqb_eq in H; subst m; eexists; split; reflexivity |]).
    discriminate.
  - cbn in H. repeat (apply orb_true_iff in H as [H | H];
      [apply String.eqb_eq in H; subst m; eexists; split; reflexivity |]).
    discriminate.
Qed.

(** X4. On a connected serial object, [set_mode] with a valid [int] or
    [str] port and a mode that is a name or a code of MODES writes one
    frame of four characters: the port on two characters, a dash, and one
    mode code of MODES. *)
Theorem set_mode_frame (port : PyVal) (m : string) (self : Serial) (ch : Channel) :
  truthy (is_valid_port port) = true ->
  is_bool port = false ->
  in_MODES (PyStr m) || in_MODES_values (PyStr m) = true ->
  connected self = true ->
  bridge self = Some ch ->
  exists c : ascii,
    set_mode port (PyStr m) self
    = (Ok tt, after_write self ch (format_port port ++ "-" ++ String c ""))
    /\ in_MODES_values (PyStr (String c "")) = true
    /\ String.length (format_port port ++ "-" ++ String c "") = 4%nat.
Proof.
  intros Hp Hb Hm Hc Hbr.
  destruct (mode_code_cases _ Hm) as [c [Ef Hv]]. exists c.
  split; [| split; [exact Hv |]].
  - assert (Hchk : check_inputs port PyNone (PyStr m) PyNone = Ok tt).
    { unfold check_inputs. rewrite Hp.
      destruct (in_MODES (PyStr m)); destruct (in_MODES_values (PyStr m));
        try discriminate; reflexivity. }
    unfold set_mode, bind, lift. rewrite Hchk, Hc, Ef.
    unfold _write. rewrite Hbr. reflexivity.
  - pose proof (format_port_length _ Hp Hb) as L.
    destruct (format_port port) as [| a [| b [| x r]]]; try discriminate.
    reflexivity.
Qed.

Lemma set_mode_frame_witness :
  exists c : ascii,
    set_mode (PyInt 7) (PyStr "OUTPUT") (open_serial [])
    = (Ok tt, after_write (open_serial []) (mkChannel [] [])
                          (format_port (PyInt 7) ++ "-" ++ String c ""))
    /\ format_port (PyInt 7) = "07".
Proof.
  destruct (set_mode_frame (PyInt 7) "OUTPUT" (open_serial []) (mkChannel [] [])
              eq_refl eq_refl eq_refl eq_refl eq_refl) as [c [H _]].
  exists c. split; [exact H | reflexivity].
Defined.

(** X5. A mode name and its code are interchangeable: for every port and
    every serial object, [set_mode] with a name of MODES does exactly what
    it does with the code the name stands for. *)
Theorem set_mode_name_or_code (port : PyVal) (self : Serial) (name code : string) :
  MODES_get name = Some code ->
  set_mode port (PyStr name) self = set_mode port (PyStr code) self.
Proof.
  intros H. unfold MODES_get in H. cbn in H.
  repeat match type of H with
         | option_map _ (if String.eqb name ?k then _ else _) = _ =>
           destruct (String.eqb_spec name k) as [-> | _];
             [injection H as <-; reflexivity |]
         end.
  discriminate.
Qed.

Lemma set_mode_name_or_code_witness :
  set_mode (PyStr "M1") (PyStr "FORWARD") (open_serial [])
  = set_mode (PyStr "M1") (PyStr "F") (open_serial []).
Proof.
  apply (set_mode_name_or_code (PyStr "M1") (open_serial []) "FORWARD" "F").
  reflexivity.
Defined.

(** X6. [set_speed] is refused on every valid string port that is neither
    a DC-motor port nor a stepper port: whatever the speed, it raises
    ValueError and nothing is written. *)
Theorem set_speed_other_port_refused (s : string) (c : ascii) (speed : PyVal)
        (self : Serial) :
  truthy (is_valid_port (PyStr s)) = true ->
  getitem0 (PyStr s) = Ok c ->
  Ascii.eqb c "M" = false ->
  Ascii.eqb c "S" = false ->
  set_speed (PyStr s) speed self = (Raise ValueError, self).
Proof.
  intros Hp Hg Hm Hs. unfold set_speed, bind, lift, raise. rewrite Hg, Hm.
  destruct (check_inputs (PyStr s) PyNone PyNone speed) as [[] | e |] eqn:E.
  - rewrite Hs. reflexivity.
  - unfold check_inputs in E. rewrite Hp in E. cbn in E.
    destruct (negb (is_None speed) && negb (is_valid_speed speed));
      inversion E. reflexivity.
  - unfold check_inputs in E. rewrite Hp in E. cbn in E.
    destruct (negb (is_None speed) && negb (is_valid_speed speed)); discriminate.
Qed.

Lemma set_speed_other_port_refused_witness :
  set_speed (PyStr "A3") (PyInt 50) (open_serial [])
  = (Raise ValueError, open_serial []).
Proof.
  apply (set_speed_other_port_refused "A3" "A"%char); reflexivity.
Defined.

(** X7. Nothing reaches the wire for a port that [is_valid_port]
    refuses: [set_value], [set_mode] and [get_value] raise ValueError and
    [set_speed] raises too, whatever the other argument and whether or not
    the serial object is connected; the serial object is left untouched. *)
Theorem invalid_port_refused (port x : PyVal) (self : Serial) :
  truthy (is_valid_port port) = false ->
  set_value port x self = (Raise ValueError, self)
  /\ set_mode port x self = (Raise ValueError, self)
  /\ get_value port self = (Raise ValueError, self)
  /\ exists e, set_speed port x self = (Raise e, self).
Proof.
  intros Hp.
  assert (Hc : forall v m sp, check_inputs port v m sp = Raise ValueError)
    by (intros; apply check_inputs_invalid_port, Hp).
  repeat split.
  - unfold set_value, bind, lift. rewrite Hc. reflexivity.
  - unfold set_mode, bind, lift. rewrite Hc. reflexivity.
  - unfold get_value, bind, lift. rewrite Hc. reflexivity.
  - unfold set_speed, bind, lift.
    destruct (getitem0 port) as [c | e |] eqn:E.
    + destruct (Ascii.eqb c "M").
      * unfold set_value, bind, lift. rewrite Hc. eauto.
      * rewrite Hc. eauto.
    + eauto.
    + destruct port as [| | | [|]]; discriminate.
Qed.

Lemma invalid_port_refused_witness :
  set_value (PyStr "A6") (PyBool true) (open_serial [])
  = (Raise ValueError, open_serial [])
  /\ get_value (PyInt 14) (open_serial ["1"]) = (Raise ValueError, open_serial ["1"]).
Proof.
  split.
  - exact (proj1 (invalid_port_refused (PyStr "A6") (PyBool true) (open_serial [])
                    eq_refl)).
  - exact (proj1 (proj2 (proj2 (invalid_port_refused (PyInt 14) PyNone
                                   (open_serial ["1"]) eq_refl)))).
Defined.

(** X8. On a connected serial object, [set_value] with a valid string
    port and a valid value writes the port, a colon and the value code: H
    or L for a [bool]; for an integer one or two hexadecimal digits that
    read back as the integer. *)
Theorem set_value_frame_reads_back (s : string) (value : PyVal) (self : Serial)
        (ch : Channel) :
  truthy (is_valid_port (PyStr s)) = true ->
  is_valid_value value = true ->
  connected self = true ->
  bridge self = Some ch ->
  set_value (PyStr s) value self
  = (Ok tt, after_write self ch (s ++ ":" ++ value_code value))
  /\ (forall b, value = PyBool b -> value_code value = if b then "H" else "L")
  /\ (forall n, value = PyInt n ->
                HexString.to_Z ("0x" ++ value_code value) = n
                /\ (1 <= String.length (value_code value) <= 2)%nat).
Proof.
  intros Hp Hv Hc Hb. split; [| split].
  - exact (set_value_str_port_frame _ _ _ _ Hp Hv Hc Hb).
  - intros b ->. destruct b; reflexivity.
  - intros n ->. cbn in Hv. assert (Hn : 0 <= n < 256) by lia.
    destruct (value_code_hex n Hn) as [H1 [H2 _]]. split; [exact H1 |].
    rewrite H2. destruct (n <? 16); lia.
Qed.

Lemma set_value_frame_reads_back_witness :
  set_value (PyStr "M2") (PyInt 200) (open_serial [])
  = (Ok tt, after_write (open_serial []) (mkChannel [] []) "M2:c8").
Proof.
  exact (proj1 (set_value_frame_reads_back "M2" (PyInt 200) (open_serial [])
                  (mkChannel [] []) eq_refl eq_refl eq_refl eq_refl)).
Defined.

(** The same, as the devices use it. *)
Lemma get_value_decimal_line (port : PyVal) (self : Serial) (ch : Channel)
      (n : Z) (ws : string) (rest : list string) :
  truthy (is_valid_port port) = true ->
  connected self = true ->
  bridge self = Some ch ->
  incoming ch = (str_of_Z n ++ ws)%string :: rest ->
  all_space ws = true ->
  (Z.of_nat (String.length (str_of_Z (Z.abs n))) <=? int_max_str_digits) = true ->
  get_value port self = (Ok (PyInt n), after_request port ch rest).
Proof.
  intros Hp Hc Hb Hi Hws Hn.
  rewrite (get_value_line _ _ _ _ _ Hc Hb Hi), Hp.
  rewrite (int_of_str_printed _ _ Hws Hn). reflexivity.
Qed.

(* ===================================================================== *)
(** * Further properties of the devices *)
(* ===================================================================== *)

(** ** Construction *)

(** X9. A matrix cannot be built: the constructor of [DigitalInputMatrix]
    (and of [DigitalInputMatrixSet]) sets the mode MATRIX, which
    [check_inputs] refuses, so it raises ValueError for every port; and
    so does the constructor of [MoveSensor], which builds a matrix.
    Nothing is written. *)
Theorem matrix_cannot_be_built (port : PyVal) (rev tracked : bool) (s : Serial) :
  DigitalInputMatrix_init (T := list (list bool)) port rev tracked s
  = (Raise ValueError, s)
  /\ DigitalInputMatrix_init (T := index_set) port rev tracked s
     = (Raise ValueError, s)
  /\ MoveSensor_init port rev s = (Raise ValueError, s).
Proof.
  unfold MoveSensor_init, bind, DigitalInputMatrix_init.
  rewrite set_mode_MATRIX_refused. repeat split.
Qed.

(** ** DigitalOutput *)

Lemma DigitalOutput_set_str_port (turn_on : bool) (self : DigitalOutput)
      (s : string) (ch : Channel) :
  out_port self = PyStr s ->
  truthy (is_valid_port (PyStr s)) = true ->
  connected (out_serial self) = true ->
  bridge (out_serial self) = Some ch ->
  DigitalOutput_set turn_on self
  = (Ok tt,
     mkOutput (after_write (out_serial self) ch
                           (s ++ ":" ++ level (xorb turn_on (out_reversed self))))
              (PyStr s) (out_reversed self) turn_on).
Proof.
  intros Hport Hp Hc Hb. unfold DigitalOutput_set. rewrite Hport.
  rewrite (set_value_str_port_frame s (PyBool (xorb turn_on (out_reversed self)))
             _ ch Hp eq_refl Hc Hb).
  destruct (xorb turn_on (out_reversed self)); reflexivity.
Qed.

(** X10. On a connected serial object and a valid string port, two calls
    of [toggle] return the opposite state and then the first state again,
    leave [is_on] as it was and write two frames, the level of the opposite
    state first (each level reversed when the output is reversed). *)
Theorem toggle_twice (self : DigitalOutput) (s : string) (ch : Channel) :
  out_port self = PyStr s ->
  truthy (is_valid_port (PyStr s)) = true ->
  connected (out_serial self) = true ->
  bridge (out_serial self) = Some ch ->
  exists self1 self2,
    DigitalOutput_toggle self = (Ok (negb (_is_on self)), self1)
    /\ DigitalOutput_toggle self1 = (Ok (_is_on self), self2)
    /\ _is_on self2 = _is_on self
    /\ bridge (out_serial self2)
       = Some (mkChannel
                 (written ch
                  ++ [(s ++ ":" ++ level (xorb (negb (_is_on self)) (out_reversed self)))
                        ++ String "013" ""]
                  ++ [(s ++ ":" ++ level (xorb (_is_on self) (out_reversed self)))
                        ++ String "013" ""])
                 (incoming ch)).
Proof.
  intros Hport Hp Hc Hb. unfold DigitalOutput_toggle, bind.
  rewrite (DigitalOutput_set_str_port _ _ _ _ Hport Hp Hc Hb).
  eexists _, _. split; [reflexivity |]. cbn [_is_on].
  erewrite DigitalOutput_set_str_port;
    [| reflexivity | exact Hp | exact Hc | reflexivity].
  rewrite negb_involutive. split; [reflexivity |]. split; [reflexivity |].
  cbn. rewrite <- app_assoc. reflexivity.
Qed.

Lemma toggle_twice_witness :
  exists self1 self2,
    DigitalOutput_toggle (output_on (open_serial []) false) = (Ok true, self1)
    /\ DigitalOutput_toggle self1 = (Ok false, self2)
    /\ bridge (out_serial self2)
       = Some (mkChannel ["A0:H" ++ String "013" ""; "A0:L" ++ String "013" ""] []).
Proof.
  destruct (toggle_twice (output_on (open_serial []) false) "A0" (mkChannel [] [])
              eq_refl eq_refl eq_refl eq_refl) as [s1 [s2 [H1 [H2 [_ H4]]]]].
  exists s1, s2. split; [exact H1 |]. split; [exact H2 | exact H4].
Defined.

(** X11. A digital output on an integer port, the type its constructor
    declares, cannot be switched: [set] raises TypeError for every valid
    integer port, writes nothing and leaves [is_on] as it was; [toggle]
    raises as well. *)
Theorem output_on_int_port_raises (turn_on : bool) (self : DigitalOutput) (n : Z) :
  out_port self = PyInt n ->
  0 <= n <= 13 ->
  DigitalOutput_set turn_on self = (Raise TypeError, self)
  /\ DigitalOutput_toggle self = (Raise TypeError, self).
Proof.
  intros Hport Hn.
  assert (Hp : truthy (is_valid_port (PyInt n)) = true) by (cbn; lia).
  assert (Hs : forall b, DigitalOutput_set b self = (Raise TypeError, self)).
  { intros b. unfold DigitalOutput_set. rewrite Hport.
    rewrite (set_value_int_port (PyInt n) (PyBool (xorb b (out_reversed self)))
               n _ eq_refl Hp eq_refl).
    destruct self; cbn in *; subst; reflexivity. }
  split; [apply Hs |]. unfold DigitalOutput_toggle, bind. rewrite Hs. reflexivity.
Qed.

Lemma output_on_int_port_raises_witness :
  DigitalOutput_set true (mkOutput (open_serial []) (PyInt 13) false false)
  = (Raise TypeError, mkOutput (open_serial []) (PyInt 13) false false).
Proof.
  apply (output_on_int_port_raises true
           (mkOutput (open_serial []) (PyInt 13) false false) 13);
    [reflexivity | lia].
Defined.

(** ** DigitalInput *)

(** X12. A digital input reads high exactly when the reply is the integer
    1 (low for every other integer of at most 4300 digits, the limit of
    [int], such as 255), the result being inverted when the input is
    reversed; on a serial object that is not connected it reads its
    [reversed] flag and nothing is written. *)
Theorem DigitalInput_reads (f : InputFields) :
  truthy (is_valid_port (port f)) = true ->
  (connected (serial f) = false ->
   DigitalInput_fetch_value f = (Ok (Some (reversed f)), f))
  /\ (forall ch n ws rest,
         connected (serial f) = true ->
         bridge (serial f) = Some ch ->
         incoming ch = (str_of_Z n ++ ws)%string :: rest ->
         all_space ws = true ->
         (Z.of_nat (String.length (str_of_Z (Z.abs n))) <=? int_max_str_digits) = true ->
         DigitalInput_fetch_value f
         = (Ok (Some (xorb (n =? 1) (reversed f))),
            mkInput (after_request (port f) ch rest) (port f) (reversed f))).
Proof.
  intros Hp. split.
  - intros Hc. unfold DigitalInput_fetch_value, bind, on_serial, ret.
    unfold get_value, bind, lift, check_inputs. rewrite Hp. cbn. rewrite Hc.
    destruct f; reflexivity.
  - intros ch n ws rest Hc Hb Hi Hws Hn.
    unfold DigitalInput_fetch_value, bind, on_serial, ret.
    rewrite (get_value_decimal_line _ _ _ _ _ _ Hp Hc Hb Hi Hws Hn). reflexivity.
Qed.

Lemma DigitalInput_reads_witness :
  DigitalInput_fetch_value (mkInput closed_serial (PyInt 2) true)
  = (Ok (Some true), mkInput closed_serial (PyInt 2) true)
  /\ fst (DigitalInput_fetch_value
            (mkInput (open_serial ["255" ++ newline]) (PyInt 2) false))
     = Ok (Some false).
Proof.
  split.
  - exact (proj1 (DigitalInput_reads (mkInput closed_serial (PyInt 2) true) eq_refl)
                 eq_refl).
  - rewrite (proj2 (DigitalInput_reads
                      (mkInput (open_serial ["255" ++ newline]) (PyInt 2) false)
                      eq_refl)
                   (mkChannel [] ["255" ++ newline]) 255 newline []
                   eq_refl eq_refl eq_refl eq_refl eq_refl).
    reflexivity.
Defined.

(** X13. The edges of a digital input, with the sample of the cycle [v]
    cached and the previous sample [l]: [newly()] is [v and not l],
    [oldly()] is [not v and l], no fetch is made, and the two are never
    both true. Without a previous sample both are [None]. *)
Theorem DigitalInput_edges (self : DigitalInput) (v : bool) :
  _value self = Some v ->
  match last_value self with
  | Some l =>
    DigitalInput_newly self = (Ok (Some (v && negb l)), self)
    /\ DigitalInput_oldly self = (Ok (Some (negb v && l)), self)
    /\ (v && negb l) && (negb v && l) = false
  | None =>
    DigitalInput_newly self = (Ok None, self)
    /\ DigitalInput_oldly self = (Ok None, self)
  end.
Proof.
  intros Hv. unfold DigitalInput_newly, DigitalInput_oldly.
  destruct (last_value self) as [l |]; [| split; reflexivity].
  unfold bind, DigitalInput_value. rewrite (value_cached _ _ _ Hv).
  destruct v, l; repeat split.
Qed.

Lemma DigitalInput_edges_witness :
  DigitalInput_newly (input_on closed_serial (Some true) (Some false))
  = (Ok (Some true), input_on closed_serial (Some true) (Some false))
  /\ DigitalInput_oldly (input_on closed_serial (Some true) (Some false))
     = (Ok (Some false), input_on closed_serial (Some true) (Some false)).
Proof.
  pose proof (DigitalInput_edges (input_on closed_serial (Some true) (Some false))
                true eq_refl) as [H1 [H2 _]].
  split; [exact H1 | exact H2].
Defined.

(** ** What the constructors send *)

Lemma set_mode_named (port : PyVal) (name code : string) (self : Serial) (ch : Channel) :
  truthy (is_valid_port port) = true ->
  in_MODES (PyStr name) = true ->
  MODES_get name = Some code ->
  connected self = true ->
  bridge self = Some ch ->
  set_mode port (PyStr name) self
  = (Ok tt, after_write self ch (format_port port ++ "-" ++ code)).
Proof.
  intros Hp Hin Hget Hc Hb.
  assert (Hchk : check_inputs port PyNone (PyStr name) PyNone = Ok tt).
  { unfold check_inputs. rewrite Hp, Hin. reflexivity. }
  unfold set_mode, bind, lift. rewrite Hchk, Hc. unfold format_mode. rewrite Hget.
  unfold _write. rewrite Hb. reflexivity.
Qed.

(** X24. On a connected serial object and a valid port, constructing a
    [DigitalOutput] writes the single frame port-O and the object starts
    with [is_on] false (no level is written: [turn_off] only prints);
    constructing a [DigitalInput] writes the single frame port-I and the
    object starts untracked, with nothing cached. *)
Theorem constructors_set_mode (port : PyVal) (rev : bool) (s : Serial) (ch : Channel) :
  truthy (is_valid_port port) = true ->
  connected s = true ->
  bridge s = Some ch ->
  DigitalOutput_init port rev s
  = (Ok (mkOutput (after_write s ch (format_port port ++ "-O")) port rev false),
     after_write s ch (format_port port ++ "-O"))
  /\ DigitalInput_init port rev s
     = (Ok (mkCached None None false 0%nat
                     (mkInput (after_write s ch (format_port port ++ "-I")) port rev)),
        after_write s ch (format_port port ++ "-I")).
Proof.
  intros Hp Hc Hb. unfold DigitalOutput_init, DigitalInput_init.
  rewrite (set_mode_named port "OUTPUT" "O" s ch Hp eq_refl eq_refl Hc Hb).
  rewrite (set_mode_named port "INPUT" "I" s ch Hp eq_refl eq_refl Hc Hb).
  split; reflexivity.
Qed.

Lemma constructors_set_mode_witness :
  fst (DigitalOutput_init (PyInt 7) false (open_serial []))
  = Ok (mkOutput (after_write (open_serial []) (mkChannel [] []) "07-O")
                 (PyInt 7) false false).
Proof.
  rewrite (proj1 (constructors_set_mode (PyInt 7) false (open_serial [])
                    (mkChannel [] []) eq_refl eq_refl eq_refl)).
  reflexivity.
Defined.

(** ** CachedValue.reset *)

Section ResetFacts.

Context {T Sub : Type}.
Variable fetch : M Sub (option T).

(** X14. What [reset] does to the base fields. When it returns, the cache
    is empty, so that the next access fetches; an untracked object has
    fetched nothing and its previous cache, fetched or not, is now
    [last_value]; a cached sample becomes [last_value] without any fetch;
    at most one fetch was made. When it does not return (the fetch of a
    tracked object raised), the cycle has not advanced: the cache is
    still empty and [last_value] is the one of before. *)
Theorem reset_outcomes (self : CachedValue T Sub) :
  match reset fetch self with
  | (Ok _, self') =>
    _value self' = None
    /\ (fetch_calls self' <= S (fetch_calls self))%nat
    /\ (track self = false ->
        last_value self' = _value self
        /\ fetch_calls self' = fetch_calls self
        /\ fields self' = fields self)
    /\ (forall v, _value self = Some v ->
                  last_value self' = Some v
                  /\ fetch_calls self' = fetch_calls self
                  /\ fields self' = fields self)
  | (_, self') =>
    track self = true
    /\ _value self = None
    /\ _value self' = None
    /\ last_value self' = last_value self
    /\ fetch_calls self' = S (fetch_calls self)
  end.
Proof.
  unfold reset. destruct (track self) eqn:Et.
  - unfold bind, value. destruct (_value self) as [v |] eqn:Ev.
    + cbn. repeat split; intros; try lia; congruence.
    + unfold bind, count_fetch, on_fields, store_value, ret. cbn.
      destruct (fetch (fields self)) as [[v | e |] sub']; cbn;
        rewrite ?Ev; repeat split; intros; try lia; congruence.
  - cbn. repeat split; intros; try lia; congruence.
Qed.

End ResetFacts.

(** X15. An input that is not tracked and was not read during a cycle
    has no edge in the next one: after two calls of [reset] with no access
    in between, [last_value] is [None] and [newly()] and [oldly()] return
    [None] (once the sample of the new cycle is fetched or not); no fetch
    was made by the calls of [reset]. *)
Theorem unread_input_loses_edge (self : DigitalInput) :
  track self = false ->
  exists s2,
    (run DigitalInput_reset then DigitalInput_reset) self = (Ok tt, s2)
    /\ last_value s2 = None
    /\ fetch_calls s2 = fetch_calls self
    /\ DigitalInput_newly s2 = (Ok None, s2)
    /\ DigitalInput_oldly s2 = (Ok None, s2).
Proof.
  intros Ht. unfold bind, DigitalInput_reset, reset. rewrite Ht. cbn.
  rewrite ?Ht. eexists. split; [reflexivity |]. repeat split.
Qed.

Lemma unread_input_loses_edge_witness :
  exists s2,
    (run DigitalInput_reset then DigitalInput_reset)
      (input_on closed_serial (Some true) (Some false)) = (Ok tt, s2)
    /\ DigitalInput_newly s2 = (Ok None, s2).
Proof.
  destruct (unread_input_loses_edge (input_on closed_serial (Some true) (Some false))
              eq_refl) as [s2 [H1 [_ [_ [H4 _]]]]].
  exists s2. split; [exact H1 | exact H4].
Defined.

(** ** The coordinate set of a grid *)

Lemma add_row_spec (i : nat) (row : list bool) :
  forall (j : nat) (X : index_set) (p : nat * nat),
    p ∈ add_row i j row X <->
    p ∈ X \/ exists k, p = (i, j + k)%nat /\ nth_error row k = Some true.
Proof.
  induction row as [| v r IH]; intros j X p; cbn [add_row].
  - split; [intros H; left; exact H |].
    intros [H | [k [_ H]]]; [exact H | destruct k; discriminate].
  - rewrite IH. split.
    + intros [H | [k [-> Hk]]].
      * destruct v; [| left; exact H].
        apply elem_of_union in H as [H | H]; [| left; exact H].
        apply elem_of_singleton in H. subst p.
        right. exists 0%nat. split; [f_equal; lia | reflexivity].
      * right. exists (S k). split; [f_equal; lia | exact Hk].
    + intros [H | [k [-> Hk]]].
      * left. destruct v; [apply elem_of_union; right |]; exact H.
      * destruct k as [| k].
        -- cbn in Hk. injection Hk as ->. left.
           apply elem_of_union. left. apply elem_of_singleton. f_equal. lia.
        -- right. exists k. split; [f_equal; lia | exact Hk].
Qed.

Lemma add_rows_spec (grid : list (list bool)) :
  forall (i : nat) (X : index_set) (p : nat * nat),
    p ∈ add_rows i grid X <->
    p ∈ X \/ exists a b row,
               p = (i + a, b)%nat /\ nth_error grid a = Some row
               /\ nth_error row b = Some true.
Proof.
  induction grid as [| row rest IH]; intros i X p; cbn [add_rows].
  - split; [intros H; left; exact H |].
    intros [H | [a [b [row [_ [H _]]]]]]; [exact H | destruct a; discriminate].
  - rewrite IH, add_row_spec. split.
    + intros [[H | [k [-> Hk]]] | [a [b [r [-> [Ha Hb]]]]]].
      * left. exact H.
      * right. exists 0%nat, k, row. split; [f_equal; lia | split; [reflexivity | exact Hk]].
      * right. exists (S a), b, r. split; [f_equal; lia | split; [exact Ha | exact Hb]].
    + intros [H | [a [b [r [-> [Ha Hb]]]]]].
      * left. left. exact H.
      * destruct a as [| a].
        -- cbn in Ha. injection Ha as ->. left. right. exists b.
           split; [f_equal; lia | exact Hb].
        -- right. exists a, b, r. split; [f_equal; lia | split; [exact Ha | exact Hb]].
Qed.

(** X16. The set that [DigitalInputMatrixSet._fetch_value] builds from a
    grid holds exactly the coordinates (row, column) of the true entries,
    whatever the shape of the grid. *)
Theorem indexes_are_true_cells (grid : list (list bool)) (a b : nat) :
  (a, b) ∈ add_rows 0 grid ∅ <-> cell grid a b = Ok true.
Proof.
  rewrite add_rows_spec. unfold cell. split.
  - intros [H | [a' [b' [row [E [Ha Hb]]]]]];
      [exfalso; exact (not_elem_of_empty _ H) |].
    injection E as -> ->. cbn. rewrite Ha, Hb. reflexivity.
  - intros H. right.
    destruct (nth_error grid a) as [row |] eqn:Ea; [| discriminate].
    destruct (nth_error row b) as [v |] eqn:Eb; [| discriminate].
    injection H as ->. exists a, b, row. repeat split; assumption.
Qed.

(** ** The edges of the coordinate sets *)

Lemma matrix_edges_cached (m : MatrixSet) (cur last : index_set) :
  _value m = Some cur ->
  last_value m = Some last ->
  matrix_newly m = (Ok (Some (cur ∖ last)), m)
  /\ matrix_oldly m = (Ok (Some (last ∖ cur)), m).
Proof.
  intros Hc Hl. split.
  - unfold matrix_newly. rewrite Hl.
    unfold bind, matrix_value. rewrite (value_cached _ _ _ Hc). reflexivity.
  - unfold matrix_oldly. rewrite Hl.
    unfold bind, matrix_value. rewrite (value_cached _ _ _ Hc). reflexivity.
Qed.

(** X17. With both samples of a matrix cached, [newly()] and [oldly()]
    make no fetch; a coordinate is in [newly()] exactly when it is in the
    current sample and not in the previous one, and the other way round
    for [oldly()]; the two sets are disjoint; and the current sample is
    the previous one without [oldly()] and with [newly()]. *)
Theorem matrix_edges (m : MatrixSet) (cur last : index_set) :
  _value m = Some cur ->
  last_value m = Some last ->
  matrix_newly m = (Ok (Some (cur ∖ last)), m)
  /\ matrix_oldly m = (Ok (Some (last ∖ cur)), m)
  /\ (cur ∖ last) ## (last ∖ cur)
  /\ cur = (last ∖ (last ∖ cur)) ∪ (cur ∖ last).
Proof.
  intros Hc Hl. destruct (matrix_edges_cached _ _ _ Hc Hl) as [Hn Ho].
  split; [exact Hn | split; [exact Ho | split]].
  - intros p H1 H2.
    apply elem_of_difference in H1 as [_ H1], H2 as [H2 _]. exact (H1 H2).
  - apply set_eq. intros p.
    rewrite elem_of_union, !elem_of_difference.
    destruct (decide (p ∈ last)); destruct (decide (p ∈ cur)); tauto.
Qed.

Lemma matrix_edges_witness :
  matrix_newly (cached_matrix {[ (4, 3)%nat ]} {[ (4, 1)%nat ]})
  = (Ok (Some ({[ (4, 3)%nat ]} ∖ {[ (4, 1)%nat ]})),
     cached_matrix {[ (4, 3)%nat ]} {[ (4, 1)%nat ]}).
Proof.
  exact (proj1 (matrix_edges (cached_matrix {[ (4, 3)%nat ]} {[ (4, 1)%nat ]})
                  {[ (4, 3)%nat ]} {[ (4, 1)%nat ]} eq_refl eq_refl)).
Defined.

(** ** The move sensor and a matrix that cannot fetch *)

Lemma matrix_set_fetch_never_returns (f f' : InputFields) (v : option index_set) :
  DigitalInputMatrixSet_fetch_value f <> (Ok v, f').
Proof.
  unfold DigitalInputMatrixSet_fetch_value, bind.
  destruct (DigitalInputMatrix_fetch_value f) as [[g | e |] f1] eqn:E;
    [| discriminate | discriminate].
  exfalso. exact (matrix_fetch_never_returns _ _ _ E).
Qed.

(** An access to a matrix with an empty cache does not return. *)
Lemma matrix_value_never_returns (m m' : MatrixSet) (v : option index_set) :
  _value m = None -> matrix_value m <> (Ok v, m').
Proof.
  intros Hn. unfold matrix_value, value. rewrite Hn.
  unfold bind, count_fetch, on_fields. cbn.
  destruct (DigitalInputMatrixSet_fetch_value (fields m)) as [[w | e |] f1] eqn:E;
    [| discriminate | discriminate].
  exfalso. exact (matrix_set_fetch_never_returns _ _ _ E).
Qed.

Lemma matrix_reset_clears (m m' : MatrixSet) :
  matrix_reset m = (Ok tt, m') -> _value m' = None.
Proof.
  unfold matrix_reset, reset. destruct (track m).
  - unfold bind. destruct (value DigitalInputMatrixSet_fetch_value m) as [[v | e |] m1];
      intros H; inversion H; reflexivity.
  - intros H. inversion H. reflexivity.
Qed.

Section NeverReturns.

Variable set_iter : index_set -> list (nat * nat).






(** X19. A lift is pending, both samples of the matrix are cached and no
    square newly appears: [_fetch_value] returns [None] and changes
    nothing; the lifts stay pending. *)
Theorem no_placement_keeps_pending (ms : MoveFields) (pu : string)
        (cur last : index_set) :
  pick_up ms = Some pu ->
  _value (_matrix ms) = Some cur ->
  last_value (_matrix ms) = Some last ->
  cur ⊆ last ->
  MoveSensor_fetch_value set_iter ms = (Ok None, ms).
Proof.
  intros Hp Hc Hl Hsub. unfold MoveSensor_fetch_value. rewrite Hp.
  unfold bind at 1. unfold on_matrix.
  rewrite (proj1 (matrix_edges_cached _ _ _ Hc Hl)).
  assert (He : cur ∖ last = ∅).
  { apply set_eq. intros p. rewrite elem_of_difference. split.
    - intros [H1 H2]. exfalso. exact (H2 (Hsub _ H1)).
    - intros H. exfalso. exact (not_elem_of_empty _ H). }
  rewrite He. unfold bind, lift, len, ret. rewrite size_empty. cbn.
  destruct ms; cbn in *; subst; reflexivity.
Qed.

End NeverReturns.

Lemma no_placement_keeps_pending_witness :
  MoveSensor_fetch_value elements (one_lifted (4, 1)%nat ∅ {[ (4, 1)%nat ]})
  = (Ok None, one_lifted (4, 1)%nat ∅ {[ (4, 1)%nat ]}).
Proof.
  apply (no_placement_keeps_pending elements
           (one_lifted (4, 1)%nat ∅ {[ (4, 1)%nat ]}) "e2" ∅ {[ (4, 1)%nat ]});
    try reflexivity.
  intros p H. exfalso. exact (not_elem_of_empty p H).
Defined.

(** ** The names of the squares *)

Lemma index_to_move_shape_table :
  forallb (fun p =>
    String.eqb (_index_to_move p)
               (String (ascii_of_nat (97 + fst p))
                       (String (ascii_of_nat (49 + snd p)) EmptyString)))
    board = true.
Proof. vm_compute. reflexivity. Qed.

(** X20. On the board, [_index_to_move] names a square by two
    characters, the letter a..h of the first index and the digit 1..8 of
    the second, and two squares have the same name only when they are the
    same square. *)
Theorem index_to_move_names (p q : nat * nat) :
  on_board p -> on_board q ->
  _index_to_move p
  = String (ascii_of_nat (97 + fst p)) (String (ascii_of_nat (49 + snd p)) EmptyString)
  /\ (_index_to_move p = _index_to_move q <-> p = q).
Proof.
  intros Hp Hq. split.
  - pose proof index_to_move_shape_table as T. rewrite forallb_forall in T.
    apply String.eqb_eq, T, on_board_in, Hp.
  - split; [apply index_to_move_inj; assumption | intros ->; reflexivity].
Qed.

Lemma index_to_move_names_witness :
  _index_to_move (4, 3)%nat = "e4"
  /\ (_index_to_move (4, 3)%nat = _index_to_move (3, 4)%nat <-> (4, 3)%nat = (3, 4)%nat).
Proof.
  assert (B : forall i j, (i < 8)%nat -> (j < 8)%nat -> on_board (i, j))
    by (intros; split; assumption).
  exact (index_to_move_names (4, 3)%nat (3, 4)%nat
           (B 4 3 ltac:(lia) ltac:(lia))%nat (B 3 4 ltac:(lia) ltac:(lia))%nat).
Defined.

(** ** The edges of the grids *)

Lemma skipn_nth_error {A : Type} (l : list A) :
  forall (j : nat) (x : A),
    nth_error l j = Some x -> skipn j l = x :: skipn (S j) l.
Proof.
  induction l as [| a l IH]; intros [| j] x H; try discriminate.
  - injection H as ->. reflexivity.
  - cbn in H. cbn [skipn]. exact (IH j x H).
Qed.

Lemma cell_at (last : list (list bool)) (i j : nat) (lrow : list bool) (b : bool) :
  nth_error last i = Some lrow -> nth_error lrow j = Some b -> cell last i j = Ok b.
Proof. intros Hl Hb. unfold cell. rewrite Hl, Hb. reflexivity. Qed.

Lemma newly_cells_from (last : list (list bool)) (i : nat) (lrow : list bool) :
  nth_error last i = Some lrow ->
  forall (row : list bool) (j : nat),
    (j + length row <= length lrow)%nat ->
    newly_cells last i j row = Ok (zip_with rising row (skipn j lrow)).
Proof.
  intros Hl. induction row as [| v r IH]; intros j Hj; [reflexivity |].
  cbn [length] in Hj.
  destruct (nth_error lrow j) as [b |] eqn:Eb;
    [| apply nth_error_None in Eb; lia].
  cbn [newly_cells]. rewrite (skipn_nth_error _ _ _ Eb), (cell_at _ _ _ _ _ Hl Eb).
  rewrite (IH (S j)) by lia. destruct v; reflexivity.
Qed.

Lemma oldly_cells_from (last : list (list bool)) (i : nat) (lrow : list bool) :
  nth_error last i = Some lrow ->
  forall (row : list bool) (j : nat),
    (j + length row <= length lrow)%nat ->
    oldly_cells last i j row = Ok (zip_with falling row (skipn j lrow)).
Proof.
  intros Hl. induction row as [| v r IH]; intros j Hj; [reflexivity |].
  cbn [length] in Hj.
  destruct (nth_error lrow j) as [b |] eqn:Eb;
    [| apply nth_error_None in Eb; lia].
  cbn [oldly_cells]. rewrite (skipn_nth_error _ _ _ Eb), (cell_at _ _ _ _ _ Hl Eb).
  rewrite (IH (S j)) by lia. destruct v; reflexivity.
Qed.

Lemma newly_cells_aligned (last : list (list bool)) (i : nat) (lrow row : list bool) :
  nth_error last i = Some lrow ->
  length row = length lrow ->
  newly_cells last i 0 row = Ok (zip_with rising row lrow).
Proof.
  intros Hl Hlen. apply (newly_cells_from last i lrow Hl row 0%nat). lia.
Qed.

Lemma oldly_cells_aligned (last : list (list bool)) (i : nat) (lrow row : list bool) :
  nth_error last i = Some lrow ->
  length row = length lrow ->
  oldly_cells last i 0 row = Ok (zip_with falling row lrow).
Proof.
  intros Hl Hlen. apply (oldly_cells_from last i lrow Hl row 0%nat). lia.
Qed.

Lemma nth_error_middle {A : Type} (pre : list A) (x : A) (post : list A) :
  nth_error (pre ++ x :: post) (length pre) = Some x.
Proof. induction pre as [| a pre IH]; [reflexivity | exact IH]. Qed.

Lemma newly_rows_aligned (cur last : list (list bool)) :
  same_shape cur last ->
  forall pre : list (list bool),
    newly_rows (pre ++ last) (length pre) cur = Ok (zip_with (zip_with rising) cur last).
Proof.
  induction 1 as [| row lrow cur last Hlen _ IH]; intros pre; [reflexivity |].
  cbn [newly_rows zip_with].
  rewrite (newly_cells_aligned _ _ lrow row (nth_error_middle pre lrow last) Hlen).
  specialize (IH (pre ++ [lrow])%list). rewrite <- app_assoc, length_app in IH.
  cbn [length app] in IH. rewrite Nat.add_1_r in IH. cbn [obind]. rewrite IH.
  reflexivity.
Qed.

Lemma oldly_rows_aligned (cur last : list (list bool)) :
  same_shape cur last ->
  forall pre : list (list bool),
    oldly_rows (pre ++ last) (length pre) cur = Ok (zip_with (zip_with falling) cur last).
Proof.
  induction 1 as [| row lrow cur last Hlen _ IH]; intros pre; [reflexivity |].
  cbn [oldly_rows zip_with].
  rewrite (oldly_cells_aligned _ _ lrow row (nth_error_middle pre lrow last) Hlen).
  specialize (IH (pre ++ [lrow])%list). rewrite <- app_assoc, length_app in IH.
  cbn [length app] in IH. rewrite Nat.add_1_r in IH. cbn [obind]. rewrite IH.
  reflexivity.
Qed.

(** X21. For a [DigitalInputMatrix] whose current and previous grids are
    cached and have the same shape, [newly()] and [oldly()] raise nothing
    and make no fetch: they return the grids of that shape whose entry is
    [current and not previous], respectively [not current and previous]. *)
Theorem grid_edges (m : Matrix) (cur last : list (list bool)) :
  _value m = Some cur ->
  last_value m = Some last ->
  same_shape cur last ->
  DigitalInputMatrix_newly m = (Ok (Some (zip_with (zip_with rising) cur last)), m)
  /\ DigitalInputMatrix_oldly m = (Ok (Some (zip_with (zip_with falling) cur last)), m).
Proof.
  intros Hc Hl Hs. unfold DigitalInputMatrix_newly, DigitalInputMatrix_oldly.
  rewrite Hl. unfold bind, DigitalInputMatrix_value.
  rewrite (value_cached _ _ _ Hc). unfold lift, ret.
  pose proof (newly_rows_aligned _ _ Hs []) as Hn.
  pose proof (oldly_rows_aligned _ _ Hs []) as Ho.
  cbn [app length] in Hn, Ho. rewrite Hn, Ho. split; reflexivity.
Qed.

Lemma grid_edges_witness :
  DigitalInputMatrix_newly (grid_matrix [[true; false]; [true; true]]
                                        [[false; false]; [true; false]])
  = (Ok (Some [[true; false]; [false; true]]),
     grid_matrix [[true; false]; [true; true]] [[false; false]; [true; false]]).
Proof.
  refine (proj1 (grid_edges (grid_matrix [[true; false]; [true; true]]
                                         [[false; false]; [true; false]])
                   [[true; false]; [true; true]] [[false; false]; [true; false]]
                   eq_refl eq_refl _)).
  repeat constructor.
Defined.

(** ** Waiting for the starting layout *)

Section SetupFacts.

Variable set_iter : index_set -> list (nat * nat).

Lemma on_matrix_value_cached (ms : MoveFields) (s : index_set) :
  _value (_matrix ms) = Some s ->
  on_matrix matrix_value ms = (Ok (Some s), ms).
Proof.
  intros H. unfold on_matrix, matrix_value. rewrite (value_cached _ _ _ H).
  destruct ms; reflexivity.
Qed.

(** A second poll never succeeds. *)
Lemma wait_after_reset (fuel : nat) (ms : MoveFields) :
  _value (_matrix ms) = None ->
  forall b ms', MoveSensor_wait_for_setup set_iter fuel ms = (Ok b, ms') ->
                b = false /\ fuel = 0%nat.
Proof.
  intros Hn b ms'. destruct fuel as [| k]; cbn [MoveSensor_wait_for_setup].
  - intros H. inversion H. split; reflexivity.
  - unfold bind at 1. unfold on_matrix.
    destruct (matrix_value (_matrix ms)) as [[v | e |] m1] eqn:E;
      [| discriminate | discriminate].
    exfalso. exact (matrix_value_never_returns _ _ _ Hn E).
Qed.

(** X22. [wait_for_setup] cannot wait. It returns only when the sample
    that the matrix has cached already places the pieces of the starting
    layout, and then at once, with nothing read, written or changed. In
    every other case it does not return: it raises (or blocks), at the
    latest at the fetch of its second poll. *)
Theorem wait_for_setup_cannot_wait (fuel : nat) (ms : MoveFields) :
  match MoveSensor_wait_for_setup set_iter (S (S fuel)) ms with
  | (Ok true, ms') =>
    ms' = ms
    /\ exists s, _value (_matrix ms) = Some s
                 /\ pieces_of set_iter (Some s) = Ok _start
  | (Ok false, _) => False
  | _ => True
  end.
Proof.
  cbn [MoveSensor_wait_for_setup]. unfold bind at 1.
  destruct (_value (_matrix ms)) as [s |] eqn:Ev.
  - rewrite (on_matrix_value_cached _ _ Ev). unfold bind at 1. unfold lift at 1.
    destruct (pieces_of set_iter (Some s)) as [g | e |] eqn:Eg; [| exact I | exact I].
    case_bool_decide as Hg.
    + subst g. cbn. split; [reflexivity |]. exists s. split; [reflexivity | exact Eg].
    + unfold bind at 1.
      destruct (on_matrix matrix_reset ms) as [[[] | e |] ms1] eqn:Er;
        [| exact I | exact I].
      assert (Hn : _value (_matrix ms1) = None).
      { unfold on_matrix in Er.
        destruct (matrix_reset (_matrix ms)) as [[[] | e |] m1] eqn:Em;
          inversion Er. cbn. exact (matrix_reset_clears _ _ Em). }
      pose proof (wait_after_reset (S fuel) ms1 Hn) as Hw.
      change (match MoveSensor_wait_for_setup set_iter (S fuel) ms1 with
              | (Ok true, ms') =>
                ms' = ms /\ exists s0, Some s = Some s0
                                       /\ pieces_of set_iter (Some s0) = Ok _start
              | (Ok false, _) => False
              | _ => True
              end).
      destruct (MoveSensor_wait_for_setup set_iter (S fuel) ms1) as [[b | e |] ms2];
        [| exact I | exact I].
      destruct (Hw b ms2 eq_refl) as [_ Hf]. discriminate.
  - unfold on_matrix.
    destruct (matrix_value (_matrix ms)) as [[v | e |] m1] eqn:E;
      [| exact I | exact I].
    exfalso. exact (matrix_value_never_returns _ _ _ Ev E).
Qed.

End SetupFacts.

(** ** The pieces placed from a sample *)

Lemma set_piece_on_board (mem : nat -> nat -> bool) (i j : nat) :
  (i < 8)%nat -> (j < 8)%nat ->
  set_piece (grid_of mem) (i, j)
  = Ok (grid_of (fun a b => at_square i j a b || mem a b)).
Proof.
  intros Hi Hj.
  do 8 (destruct i as [| i]; [do 8 (destruct j as [| j]; [reflexivity |]); lia |]).
  lia.
Qed.

Lemma set_piece_off_board (mem : nat -> nat -> bool) (i j : nat) :
  ~ ((i < 8)%nat /\ (j < 8)%nat) ->
  set_piece (grid_of mem) (i, j) = Raise IndexError.
Proof.
  intros H.
  do 8 (destruct i as [| i];
        [unfold set_piece; cbn [fst snd grid_of map seq lookup list_lookup length];
         replace (j <? 8)%nat with false by (symmetry; apply Nat.ltb_ge; lia);
         reflexivity |]).
  reflexivity.
Qed.

Lemma grid_of_ext (m1 m2 : nat -> nat -> bool) :
  (forall a b, m1 a b = m2 a b) -> grid_of m1 = grid_of m2.
Proof.
  intros H. unfold grid_of. apply map_ext. intros a. apply map_ext. intros b.
  apply H.
Qed.

Lemma grid_of_inj (m1 m2 : nat -> nat -> bool) (i j : nat) :
  grid_of m1 = grid_of m2 -> (i < 8)%nat -> (j < 8)%nat -> m1 i j = m2 i j.
Proof.
  intros H Hi Hj.
  apply (f_equal (fun g => nth j (nth i g []) false)) in H.
  do 8 (destruct i as [| i]; [do 8 (destruct j as [| j]; [exact H |]); lia |]).
  lia.
Qed.

(** Placing the squares of a list: the grid of the squares placed, or an
    IndexError when one of them is off the board. *)
Lemma set_pieces_spec (l : list (nat * nat)) :
  forall mem : nat -> nat -> bool,
    set_pieces l (grid_of mem)
    = if forallb (fun p => (fst p <? 8)%nat && (snd p <? 8)%nat) l
      then Ok (grid_of (fun a b => existsb (fun p => at_square (fst p) (snd p) a b) l
                                   || mem a b))
      else Raise IndexError.
Proof.
  induction l as [| [i j] rest IH]; intros mem; [reflexivity |].
  cbn [set_pieces forallb fst snd].
  destruct ((i <? 8)%nat && (j <? 8)%nat) eqn:E.
  - apply andb_true_iff in E as [Hi Hj]. apply Nat.ltb_lt in Hi, Hj.
    rewrite (set_piece_on_board mem i j Hi Hj). cbn [obind andb]. rewrite IH.
    destruct (forallb _ rest); [| reflexivity]. f_equal. apply grid_of_ext.
    intros a b. cbn [existsb fst snd].
    destruct (at_square i j a b), (existsb _ rest); reflexivity.
  - rewrite set_piece_off_board; [reflexivity |].
    intros [Hi Hj]. apply Nat.ltb_lt in Hi, Hj. rewrite Hi, Hj in E. discriminate.
Qed.

Lemma start_set_spec (a b : nat) :
  (a, b) ∈ start_set <-> (a < 8)%nat /\ (b < 8)%nat /\ start_column b = true.
Proof.
  unfold start_set. rewrite add_rows_spec. split.
  - intros [H | [a' [b' [row [E [Ha Hb]]]]]];
      [exfalso; exact (not_elem_of_empty _ H) |].
    injection E as -> ->. cbn [Nat.add].
    do 8 (destruct a' as [| a'];
          [cbn in Ha; injection Ha as <-;
           do 8 (destruct b' as [| b'];
                 [first [discriminate | repeat split; lia] |]);
           destruct b'; discriminate |]).
    destruct a'; discriminate.
  - intros [Ha [Hb Hc]]. right.
    exists a, b, [true; true; false; false; false; false; true; true].
    split; [reflexivity |].
    do 8 (destruct a as [| a];
          [split; [reflexivity |];
           do 8 (destruct b as [| b]; [first [reflexivity | discriminate] |]); lia |]).
    lia.
Qed.

Lemma Ok_inj {A : Type} (a b : A) : Ok a = Ok b -> a = b.
Proof. intros H. injection H as H. exact H. Qed.

Section PiecesFacts.

Variable set_iter : index_set -> list (nat * nat).
Hypothesis set_iter_perm : forall s : index_set, set_iter s ≡ₚ elements s.

Lemma set_iter_In (s : index_set) (p : nat * nat) : In p (set_iter s) <-> p ∈ s.
Proof.
  rewrite <- elem_of_elements, <- (set_iter_perm s). symmetry. apply list_elem_of_In.
Qed.

Lemma existsb_at_square (l : list (nat * nat)) (a b : nat) :
  existsb (fun p => at_square (fst p) (snd p) a b) l = true <-> In (a, b) l.
Proof.
  rewrite existsb_exists. unfold at_square. split.
  - intros [[i j] [Hin H]]. cbn in H. apply andb_true_iff in H as [H1 H2].
    apply Nat.eqb_eq in H1, H2. subst. exact Hin.
  - intros H. exists (a, b). split; [exact H |]. cbn. rewrite !Nat.eqb_refl. reflexivity.
Qed.

(** X23. The pieces that [wait_for_setup] places from a sample are the
    starting layout exactly when the sample is the set of its
    coordinates: the columns 0, 1, 6 and 7 of each of the 8 rows. A
    sample with a coordinate off the board raises IndexError. *)
Theorem pieces_show_start (s : index_set) :
  (pieces_of set_iter (Some s) = Ok _start <-> s = start_set)
  /\ ((exists p, p ∈ s /\ ~ on_board p) ->
      pieces_of set_iter (Some s) = Raise IndexError).
Proof.
  unfold pieces_of. change no_pieces with (grid_of (fun _ _ => false)).
  rewrite set_pieces_spec.
  destruct (forallb (fun p => (fst p <? 8)%nat && (snd p <? 8)%nat) (set_iter s))
    eqn:Eb.
  - rewrite forallb_forall in Eb.
    assert (Hon : forall a b, (a, b) ∈ s -> (a < 8)%nat /\ (b < 8)%nat).
    { intros a b H. apply set_iter_In, Eb in H. cbn [fst snd] in H.
      apply andb_true_iff in H as [H1 H2]. apply Nat.ltb_lt in H1, H2. tauto. }
    split; [split |].
    + intros H. apply Ok_inj in H.
      change _start with (grid_of (fun _ j => start_column j)) in H.
      apply set_eq. intros [a b]. rewrite start_set_spec. split.
      * intros Hin. destruct (Hon a b Hin) as [Ha Hb]. split; [exact Ha |].
        split; [exact Hb |].
        rewrite <- (grid_of_inj _ _ a b H Ha Hb). rewrite orb_false_r.
        apply existsb_at_square, set_iter_In, Hin.
      * intros [Ha [Hb Hc]]. rewrite <- (grid_of_inj _ _ a b H Ha Hb) in Hc.
        rewrite orb_false_r in Hc. apply set_iter_In, existsb_at_square, Hc.
    + intros ->. f_equal. change _start with (grid_of (fun _ j => start_column j)).
      unfold grid_of. apply map_ext_in. intros a Ha. apply map_ext_in. intros b Hb.
      apply in_seq in Ha, Hb. rewrite orb_false_r.
      apply eq_true_iff_eq. rewrite existsb_at_square, set_iter_In, start_set_spec.
      split; [tauto | intros H; repeat split; [lia | lia | exact H]].
    + intros [[a b] [Hin Hoff]]. exfalso. apply Hoff. exact (Hon a b Hin).
  - split; [split; [discriminate |] | reflexivity].
    intros ->. exfalso.
    assert (H : forallb (fun p => (fst p <? 8)%nat && (snd p <? 8)%nat)
                        (set_iter start_set) = true).
    { apply forallb_forall. intros [a b] Hin. apply set_iter_In, start_set_spec in Hin.
      cbn [fst snd]. apply andb_true_iff. split; apply Nat.ltb_lt; tauto. }
    rewrite H in Eb. discriminate.
Qed.

End PiecesFacts.

Lemma pieces_show_start_witness :
  pieces_of elements (Some start_set) = Ok _start
  /\ pieces_of elements (Some {[ (8, 0)%nat ]}) = Raise IndexError.
Proof.
  split.
  - exact (proj2 (proj1 (pieces_show_start elements elements_perm start_set)) eq_refl).
  - apply (proj2 (pieces_show_start elements elements_perm {[ (8, 0)%nat ]})).
    exists (8, 0)%nat. split; [apply elem_of_singleton; reflexivity |].
    intros [H _]. cbn in H. lia.
Defined.
